(** * hono-pdf-extractor: the extraction request pipeline

    A shallow embedding of [src/index.ts] (the Hono handlers for [GET /] and
    [POST /extract]) and of [src/schema.ts] (the Zod schema of the document
    metadata), followed by the properties of the pipeline.

    Conventions.
    - A JavaScript string is the list of its UTF-16 code units; [length],
      [slice], [trim] and [endsWith] count code units, as in ECMAScript.
    - A JSON value sent with [c.json] is a [json] tree; an object keeps its
      fields in insertion order.
    - The handler runs in the monad [Eff]: it threads the log of observable
      effects (console output and calls to the two collaborators) and may
      end with a thrown value, which [try_catch] intercepts. *)

From Stdlib Require Import ZArith NArith Ascii String Strings.Byte.
From Stdlib Require Import DecimalString.
From stdpp Require Import base option list gmap strings.

Local Open Scope Z_scope.

Set Warnings "-register-all".

(** ** JavaScript strings *)

Module JsString.

(** A string value: its UTF-16 code units. *)
Abbreviation t := (list N).

(** The string denoted by an ASCII literal of the source. *)
Definition lit (s : string) : t :=
  (fun a : ascii => N_of_ascii a) <$> list_ascii_of_string s.

(** [s.length]. *)
Definition length (s : t) : Z := Z.of_nat (List.length s).

(** [!s] for a string: only the empty string is falsy. *)
Definition falsy (s : t) : bool :=
  match s with
  | [] => true
  | _ :: _ => false
  end.

(** Index normalisation shared by [slice]'s two arguments: a negative index
    counts from the end, and the result is clamped to [0 .. len]. *)
Definition relative_index (len i : Z) : Z :=
  if i <? 0 then Z.max (len + i) 0 else Z.min i len.

(** [s.slice(start, end)] (String.prototype.slice). *)
Definition slice (s : t) (start end_ : Z) : t :=
  let len := length s in
  let from := relative_index len start in
  let to := relative_index len end_ in
  if to <=? from then []
  else take (Z.to_nat (to - from)) (drop (Z.to_nat from) s).

(** [s.endsWith(search)] with the default end position. *)
Definition endsWith (s search : t) : bool :=
  let len := List.length s in
  let slen := List.length search in
  if (len <? slen)%nat then false
  else bool_decide (drop (len - slen) s = search).

(** ECMAScript WhiteSpace and LineTerminator code points, the characters
    removed by [trim]: TAB, LF, VT, FF, CR, SP, NBSP, the Unicode space
    separators (category Zs), LS, PS and the byte order mark. *)
Definition is_white_space (u : N) : bool :=
  ((9 <=? u) && (u <=? 13)
   || (u =? 32) || (u =? 160) || (u =? 5760)
   || (8192 <=? u) && (u <=? 8202)
   || (u =? 8232) || (u =? 8233) || (u =? 8239) || (u =? 8287)
   || (u =? 12288) || (u =? 65279))%N.

Fixpoint trimStart (s : t) : t :=
  match s with
  | [] => []
  | u :: s' => if is_white_space u then trimStart s' else s
  end.

Definition trimEnd (s : t) : t := reverse (trimStart (reverse s)).

(** [s.trim()]. *)
Definition trim (s : t) : t := trimEnd (trimStart s).

(** [s.includes(search)]: [search] occurs at some position of [s]. *)
Definition includes (s search : t) : bool :=
  existsb
    (fun i => bool_decide (take (List.length search) (drop i s) = search))
    (seq 0 (S (List.length s))).

End JsString.

(** ** JSON values *)

Inductive json : Type :=
| JNull
| JBool (b : bool)
| JNum (n : Z)
| JStr (s : JsString.t)
| JArr (items : list json)
| JObj (fields : list (string * json)).

(** [o.key] on a JSON value; [None] is JavaScript's [undefined]. *)
Fixpoint assoc (key : string) (fields : list (string * json)) : option json :=
  match fields with
  | [] => None
  | (k, v) :: rest => if String.eqb k key then Some v else assoc key rest
  end.

Definition get_field (key : string) (v : json) : option json :=
  match v with
  | JObj fields => assoc key fields
  | _ => None
  end.

Definition keys (v : json) : list string :=
  match v with
  | JObj fields => fst <$> fields
  | _ => []
  end.

(** ** Builtins of the JavaScript runtime

    [String.prototype.toLowerCase] and [JSON.stringify] belong to the
    runtime, not to this repository.  The handler is written against this
    interface.  Lower-casing follows the Unicode case mappings; the interface
    records the one property of them that the pipeline relies on: the code
    units that lower-case to the suffix [.pdf] are exactly a full stop
    followed by [p], [d], [f] in either case. *)

Definition dot_pdf : JsString.t := JsString.lit ".pdf".

(** The last four code units spell [.pdf], letters compared without case. *)
Definition pdf_suffix_units (u1 u2 u3 u4 : N) : bool :=
  ((u1 =? 46)
   && ((u2 =? 112) || (u2 =? 80))
   && ((u3 =? 100) || (u3 =? 68))
   && ((u4 =? 102) || (u4 =? 70)))%N.

(** The type check as the specification words it: the name ends in [.pdf]
    under case-insensitive comparison. *)
Definition ends_with_pdf_ignoring_case (name : JsString.t) : bool :=
  match rev name with
  | u4 :: u3 :: u2 :: u1 :: _ => pdf_suffix_units u1 u2 u3 u4
  | _ => false
  end.

Class JsRuntime : Type := {
  toLowerCase : JsString.t -> JsString.t;
  (** [JSON.stringify(value, null, 2)] *)
  JSON_stringify : json -> JsString.t;
  toLowerCase_pdf_suffix : forall s : JsString.t,
    JsString.endsWith (toLowerCase s) dot_pdf = ends_with_pdf_ignoring_case s
}.

(** A runtime restricted to the Basic Latin case mapping, and printing every
    value as the empty string: an instance of the interface on which the
    handler can be evaluated. *)
Definition basic_latin_lower (u : N) : N :=
  if ((65 <=? u) && (u <=? 90))%N then (u + 32)%N else u.

Definition basic_latin_toLowerCase (s : JsString.t) : JsString.t :=
  basic_latin_lower <$> s.

(** ** The document metadata schema (src/schema.ts)

    A Zod schema is embedded as the validator it denotes.  A validator is
    applied to the value found under a key, [None] standing for a missing
    key ([undefined]), which every validator below rejects. *)

Module Schema.

Definition validator : Type := option json -> bool.

(** [z.string()] *)
Definition z_string : validator := fun v =>
  match v with
  | Some (JStr _) => true
  | _ => false
  end.

(** [inner.nullable()] *)
Definition z_nullable (inner : validator) : validator := fun v =>
  match v with
  | Some JNull => true
  | _ => inner v
  end.

(** [z.array(item)] *)
Definition z_array (item : validator) : validator := fun v =>
  match v with
  | Some (JArr items) => forallb (fun x => item (Some x)) items
  | _ => false
  end.

(** [z.enum(values)] *)
Definition z_enum (values : list JsString.t) : validator := fun v =>
  match v with
  | Some (JStr s) => bool_decide (s ∈ values)
  | _ => false
  end.

(** [z.object(shape)]: every key of the shape validates; keys outside the
    shape are not an error. *)
Definition z_object (shape : list (string * validator)) : validator := fun v =>
  match v with
  | Some (JObj fields) =>
      forallb (fun kv : string * validator => kv.2 (assoc kv.1 fields)) shape
  | _ => false
  end.

Definition documentTypes : list JsString.t :=
  JsString.lit <$>
    [ "report"; "article"; "letter"; "contract"; "manual"; "presentation";
      "academic_paper"; "invoice"; "resume"; "other" ]%string.

Definition documentMetadataSchema : validator :=
  z_object
    [ ("title", z_string);
      ("author", z_nullable z_string);
      ("summary", z_string);
      ("topics", z_array z_string);
      ("keywords", z_array z_string);
      ("documentType", z_enum documentTypes) ]%string.

End Schema.

(** ** Effects of a handler *)

(** A value raised by [throw]: an [Error] instance with its [message], or any
    other value. *)
Inductive thrown : Type :=
| ThrownError (message : JsString.t)
| ThrownValue (value : json).

(** Observable effects, in the order they happen. *)
Inductive event : Type :=
| ConsoleLog (args : list json)
| ConsoleError (label : JsString.t) (error : thrown)
| PdfParse (buffer : list byte)
| GenerateObject (model : string) (prompt : JsString.t).

Definition is_extractor_call (e : event) : bool :=
  match e with
  | PdfParse _ => true
  | _ => false
  end.

Definition is_generator_call (e : event) : bool :=
  match e with
  | GenerateObject _ _ => true
  | _ => false
  end.

(** A computation that extends the effect log and either returns a value or
    throws. *)
Definition Eff (A : Type) : Type := list event -> (thrown + A) * list event.

#[export] Instance Eff_ret : MRet Eff := fun A (a : A) log => (inr a, log).

#[export] Instance Eff_bind : MBind Eff := fun A B (k : A -> Eff B) (m : Eff A) log =>
  match m log with
  | (inl e, log') => (inl e, log')
  | (inr a, log') => k a log'
  end.

Definition emit (e : event) : Eff unit := fun log => (inr tt, log ++ [e]).

(** [await] of a promise already settled with [r]. *)
Definition settle {A : Type} (r : thrown + A) : Eff A := fun log => (r, log).

(** [try { body } catch (error) { handler(error) }] *)
Definition try_catch {A : Type} (body : Eff A) (handler : thrown -> Eff A) : Eff A :=
  fun log =>
    match body log with
    | (inl e, log') => handler e log'
    | (inr a, log') => (inr a, log')
    end.

(** ** Requests, responses and collaborators *)

(** An uploaded [File]: its declared name ([None] when the property is
    [undefined]) and its bytes. *)
Record File : Type := { name : option JsString.t; content : list byte }.

(** A field of a parsed form body: [string | File]. *)
Inductive FormValue : Type :=
| FormString (s : JsString.t)
| FormFile (f : File).

(** What [c.req.parseBody()] settles with: the parsed body, a dictionary
    from field names to values, or a rejection. *)
Record Request : Type := { parseBody : thrown + gmap string FormValue }.

(** The result of [pdf-parse]. *)
Record PdfData : Type := { text : JsString.t; numpages : Z }.

(** The argument of [generateObject]. *)
Record GenerateObjectOptions : Type := {
  model : string;
  schema : Schema.validator;
  prompt : JsString.t
}.

Record Response : Type := { status : Z; body : json }.

(** [c.json(object, status)]; the status defaults to 200. *)
Definition c_json (object : json) (code : Z) : Response :=
  {| status := code; body := object |}.

(** [!v] for [v : string | File | undefined]: [undefined] and the empty
    string are falsy, an object is truthy. *)
Definition form_value_falsy (v : option FormValue) : bool :=
  match v with
  | None => true
  | Some (FormString s) => JsString.falsy s
  | Some (FormFile _) => false
  end.

(** [typeof v === "string"] *)
Definition typeof_is_string (v : option FormValue) : bool :=
  match v with
  | Some (FormString _) => true
  | _ => false
  end.

(** The presence check, [!file || typeof file === "string"], together with
    the narrowing it gives: past the guard, [file] is a [File]. *)
Definition presence_check (v : option FormValue) : option File :=
  if form_value_falsy v || typeof_is_string v then None
  else match v with
       | Some (FormFile file) => Some file
       | _ => None
       end.

(** [!b] for [b : boolean | undefined], the type of an optional chain that
    ends in a predicate. *)
Definition not_optional (b : option bool) : bool :=
  match b with
  | None => true
  | Some b => negb b
  end.

Definition missing_file_message : JsString.t :=
  JsString.lit "No PDF file uploaded. Please upload a file with field name "
    ++ [34%N] ++ JsString.lit "file" ++ [34%N] ++ JsString.lit ".".

Definition unsupported_type_message : JsString.t :=
  JsString.lit "Only PDF files are accepted. Please upload a .pdf file.".

Definition no_text_message : JsString.t :=
  JsString.lit
    "Could not extract text from PDF. The file may be scanned or image-based.".

Definition failed_prefix : JsString.t := JsString.lit "Failed to process PDF: ".

Definition unknown_error_message : JsString.t :=
  JsString.lit "Unknown error occurred".

Definition error_body (message : JsString.t) : json :=
  JObj [("error"%string, JStr message)].

Definition model_id : string := "gpt-5-mini-2025-08-07".

Definition prompt_budget : Z := 15000.

Definition prompt_header : JsString.t :=
  JsString.lit "Analyze the following document text and extract metadata."
    ++ [10%N; 10%N] ++ JsString.lit "Document text:"
    ++ [10%N] ++ JsString.lit "---" ++ [10%N].

Definition prompt_footer : JsString.t := [10%N] ++ JsString.lit "---".

(** The template literal passed as [prompt]. *)
Definition build_prompt (extractedText : JsString.t) : JsString.t :=
  prompt_header ++ JsString.slice extractedText 0 prompt_budget ++ prompt_footer.

(** The options object passed to [generateObject]. *)
Definition generator_options (extractedText : JsString.t) : GenerateObjectOptions :=
  {| model := model_id;
     schema := Schema.documentMetadataSchema;
     prompt := build_prompt extractedText |}.

(** The guard of the emptiness check:
    [!extractedText || extractedText.trim().length === 0]. *)
Definition no_text (extractedText : JsString.t) : bool :=
  JsString.falsy extractedText
  || (JsString.length (JsString.trim extractedText) =? 0).

(** The guard of the type check:
    [!file.name?.toLowerCase().endsWith(".pdf")]. *)
Definition not_pdf_name `{JsRuntime} (file : File) : bool :=
  not_optional
    ((fun n => JsString.endsWith (toLowerCase n) dot_pdf) <$> name file).

Definition success_envelope (object : json) (pdfData : PdfData) : json :=
  JObj
    [ ("success", JBool true);
      ("metadata", object);
      ("rawText", JStr (text pdfData));
      ("stats",
        JObj [ ("pageCount", JNum (numpages pdfData));
               ("textLength", JNum (JsString.length (text pdfData))) ]) ]%string.

Definition health_body : json :=
  JObj
    [ ("status", JStr (JsString.lit "ok"));
      ("message", JStr (JsString.lit "PDF Metadata Extraction API"));
      ("endpoints",
        JObj [ ("POST /extract",
                 JStr (JsString.lit "Upload a PDF to extract metadata"));
               ("GET /docs",
                 JStr (JsString.lit "Swagger UI documentation")) ]) ]%string.

Section Handlers.

Context `{rt : JsRuntime}.

(** The Text Extractor: [pdf(buffer)] settles with the parsed data or
    rejects. *)
Variable pdf : list byte -> thrown + PdfData.

(** The Metadata Generator: [generateObject(options)] settles with an object
    holding the generated value under [object], or rejects.  Within one
    request it is called at most once, so a function of its argument covers
    every behaviour of the provider. *)
Variable generateObject : GenerateObjectOptions -> thrown + json.

Definition call_pdf (buffer : list byte) : Eff PdfData :=
  emit (PdfParse buffer);; settle (pdf buffer).

Definition call_generateObject (options : GenerateObjectOptions) : Eff json :=
  emit (GenerateObject (model options) (prompt options));;
  settle (generateObject options).

(** [app.get("/", ...)] *)
Definition health (_ : Request) : Eff Response :=
  mret (c_json health_body 200).

(** The [try] block of [app.post("/extract", ...)]. *)
Definition extract_try (req : Request) : Eff Response :=
  body ← settle (parseBody req);
  match presence_check ((body : gmap string FormValue) !! "file"%string) with
  | None =>
      mret (c_json (error_body missing_file_message) 400)
  | Some file =>
      if not_pdf_name file then
        mret (c_json (error_body unsupported_type_message) 400)
      else
        (* file.arrayBuffer() and Buffer.from: the bytes of the upload *)
        let buffer := content file in
        pdfData ← call_pdf buffer;
        let extractedText := text pdfData in
        if no_text extractedText then
          mret (c_json (error_body no_text_message) 422)
        else
          emit (ConsoleLog [JStr (JsString.lit "Calling OpenAI...")]);;
          object ← call_generateObject (generator_options extractedText);
          emit (ConsoleLog [JStr (JsString.lit "OpenAI response:");
                            JStr (JSON_stringify object)]);;
          mret (c_json (success_envelope object pdfData) 200)
  end.

(** The [catch] block. *)
Definition extract_catch (error : thrown) : Eff Response :=
  emit (ConsoleError (JsString.lit "Error processing PDF:") error);;
  let message :=
    match error with
    | ThrownError message => message
    | ThrownValue _ => unknown_error_message
    end in
  mret (c_json (error_body (failed_prefix ++ message)) 500).

(** [app.post("/extract", ...)] *)
Definition extract (req : Request) : Eff Response :=
  try_catch (extract_try req) extract_catch.

End Handlers.

(** ** The error taxonomy of the pipeline

    The five failures the specification names, with the HTTP status each is
    reported under, and the conditions under which a request meets them. *)

Inductive pipeline_error : Type :=
| MissingFile
| UnsupportedFileType
| NoTextContent
| ExtractionFailed (cause : thrown)
| GenerationFailed (cause : thrown).

Definition http_status (err : pipeline_error) : Z :=
  match err with
  | MissingFile | UnsupportedFileType => 400
  | NoTextContent => 422
  | ExtractionFailed _ | GenerationFailed _ => 500
  end.

(** The file's declared name ends in [.pdf], letters compared without case;
    a file without a name does not. *)
Definition has_pdf_name (file : File) : bool :=
  match name file with
  | Some n => ends_with_pdf_ignoring_case n
  | None => false
  end.

(** Empty, or white space only. *)
Definition blank (s : JsString.t) : bool := forallb JsString.is_white_space s.

(** The part of the text that reaches the generator. *)
Definition truncated (extractedText : JsString.t) : JsString.t :=
  if JsString.length extractedText <=? prompt_budget then extractedText
  else take (Z.to_nat prompt_budget) extractedText.

(** The message the [catch] block reports for a thrown value. *)
Definition catch_message (error : thrown) : JsString.t :=
  match error with
  | ThrownError message => message
  | ThrownValue _ => unknown_error_message
  end.


Definition count_calls (which : event -> bool) (log : list event) : nat :=
  List.length (List.filter which log).

Section Taxonomy.

Variable pdf : list byte -> thrown + PdfData.
Variable generateObject : GenerateObjectOptions -> thrown + json.

(** [uploaded req file]: the parsed body carries the binary [file] under the
    key [file]. *)
Definition uploaded (req : Request) (file : File) : Prop :=
  exists form : gmap string FormValue,
    parseBody req = inr form /\ form !! "file"%string = Some (FormFile file).

(** [extracted req file pdfData]: the upload passes the presence and type
    checks and the Text Extractor returns [pdfData] for it. *)
Definition extracted (req : Request) (file : File) (pdfData : PdfData) : Prop :=
  uploaded req file /\ has_pdf_name file = true
  /\ pdf (content file) = inr pdfData.

Inductive fails_with (req : Request) : pipeline_error -> Prop :=
| fails_missing_absent (form : gmap string FormValue) :
    parseBody req = inr form ->
    form !! "file"%string = None ->
    fails_with req MissingFile
| fails_missing_string (form : gmap string FormValue) (s : JsString.t) :
    parseBody req = inr form ->
    form !! "file"%string = Some (FormString s) ->
    fails_with req MissingFile
| fails_unsupported (file : File) :
    uploaded req file ->
    has_pdf_name file = false ->
    fails_with req UnsupportedFileType
| fails_extraction (file : File) (cause : thrown) :
    uploaded req file ->
    has_pdf_name file = true ->
    pdf (content file) = inl cause ->
    fails_with req (ExtractionFailed cause)
| fails_no_text (file : File) (pdfData : PdfData) :
    extracted req file pdfData ->
    blank (text pdfData) = true ->
    fails_with req NoTextContent
| fails_generation (file : File) (pdfData : PdfData) (cause : thrown) :
    extracted req file pdfData ->
    blank (text pdfData) = false ->
    generateObject (generator_options (text pdfData)) = inl cause ->
    fails_with req (GenerationFailed cause).

End Taxonomy.

(** ** Case analysis of a request *)

Section Cases.

Variable pdf : list byte -> thrown + PdfData.
Variable generateObject : GenerateObjectOptions -> thrown + json.

(** Every request falls in exactly one of these cases. *)
Inductive run_case (req : Request) : Type :=
| case_parse_rejected (cause : thrown) :
    parseBody req = inl cause -> run_case req
| case_failure (err : pipeline_error) :
    fails_with pdf generateObject req err -> run_case req
| case_success (file : File) (pdfData : PdfData) (object : json) :
    extracted pdf req file pdfData ->
    blank (text pdfData) = false ->
    generateObject (generator_options (text pdfData)) = inr object ->
    run_case req.

End Cases.

(** The Basic Latin runtime implements the interface. *)
#[export] Instance basic_latin_runtime : JsRuntime.
Proof.
  refine {| toLowerCase := basic_latin_toLowerCase;
            JSON_stringify := fun _ => [];
            toLowerCase_pdf_suffix := _ |}.
  assert (forall u c : N, (c < 65 \/ 90 < c)%N ->
            basic_latin_lower u = c <->
            u = c \/ ((97 <= c <= 122)%N /\ u = (c - 32)%N)) as lower_inv.
  { intros u c Hc. unfold basic_latin_lower.
    destruct (N.leb_spec 65 u), (N.leb_spec u 90); cbn; lia. }
  intros s. unfold ends_with_pdf_ignoring_case, basic_latin_toLowerCase.
  unfold JsString.endsWith. rewrite length_fmap.
  destruct (rev s) as [|u4 [|u3 [|u2 [|u1 r]]]] eqn:Hrev;
    apply (f_equal (@rev N)) in Hrev; rewrite rev_involutive in Hrev; subst s;
    try reflexivity.
  cbn [rev]. rewrite <- !app_assoc. cbn [app].
  rewrite fmap_app, length_app, <- (length_fmap basic_latin_lower (rev r)).
  change (List.length dot_pdf) with 4%nat. cbn [List.length].
  destruct (Nat.ltb_spec (List.length (basic_latin_lower <$> rev r) + 4) 4);
    [lia|].
  replace (List.length (basic_latin_lower <$> rev r) + 4 - 4)%nat
    with (List.length (basic_latin_lower <$> rev r)) by lia.
  rewrite drop_app_length.
  unfold pdf_suffix_units, dot_pdf. cbn [fmap list_fmap].
  apply Bool.eq_true_iff_eq.
  rewrite bool_decide_eq_true, !andb_true_iff, !orb_true_iff, !N.eqb_eq.
  change (JsString.lit ".pdf") with [46%N; 112%N; 100%N; 102%N].
  split.
  - intros [= H1 H2 H3 H4].
    apply lower_inv in H1, H2, H3, H4; lia.
  - intros [[[-> H2] H3] H4].
    assert (basic_latin_lower u2 = 112%N) as -> by (apply lower_inv; lia).
    assert (basic_latin_lower u3 = 100%N) as -> by (apply lower_inv; lia).
    assert (basic_latin_lower u4 = 102%N) as -> by (apply lower_inv; lia).
    reflexivity.
Defined.

(** ** Sample requests and collaborators

    The end-to-end scenarios of the specification, used to evaluate the
    handler: a five-page [report.pdf] with 12,345 extracted characters, an
    image-only [scan.pdf], a text file [notes.txt], and their variations. *)

Module Sample.

Definition upload (file_name : option string) : Request :=
  {| parseBody :=
       inr {[ "file"%string :=
                FormFile {| name := JsString.lit <$> file_name;
                            content := [x25; x50; x44; x46] |} ]} |}.

Definition the_file (file_name : option string) : File :=
  {| name := JsString.lit <$> file_name; content := [x25; x50; x44; x46] |}.

Definition no_upload : Request := {| parseBody := inr ∅ |}.

Definition report_text : JsString.t := repeat 97%N (Z.to_nat 12345).

Definition long_text : JsString.t := repeat 97%N (Z.to_nat 15001).

Definition extractor (extractedText : JsString.t) (pages : Z)
    : list byte -> thrown + PdfData :=
  fun _ => inr {| text := extractedText; numpages := pages |}.

Definition failing_extractor (cause : thrown) : list byte -> thrown + PdfData :=
  fun _ => inl cause.

Definition report_metadata : json :=
  JObj
    [ ("title", JStr (JsString.lit "Quarterly report"));
      ("author", JNull);
      ("summary", JStr (JsString.lit "Figures for the quarter."));
      ("topics", JArr [JStr (JsString.lit "finance")]);
      ("keywords", JArr [JStr (JsString.lit "revenue")]);
      ("documentType", JStr (JsString.lit "report")) ]%string.

Definition generator : GenerateObjectOptions -> thrown + json :=
  fun _ => inr report_metadata.

Definition failing_generator (cause : thrown)
    : GenerateObjectOptions -> thrown + json :=
  fun _ => inl cause.

Definition quota_exceeded : JsString.t := JsString.lit "quota exceeded".

End Sample.

(** ** The typed metadata (src/schema.ts, [DocumentMetadata])

    [z.infer<typeof documentMetadataSchema>]: the type of the values the
    schema parses to, its rendering as JSON, and the parser the schema
    denotes.  The parser reads the six keys of the shape and drops every
    other key. *)

Module Metadata.

Inductive DocumentType : Type :=
| Report | Article | Letter | Contract | Manual
| Presentation | AcademicPaper | Invoice | Resume | Other.

Definition all_types : list DocumentType :=
  [ Report; Article; Letter; Contract; Manual;
    Presentation; AcademicPaper; Invoice; Resume; Other ].

Definition type_name (d : DocumentType) : JsString.t :=
  JsString.lit
    match d with
    | Report => "report"
    | Article => "article"
    | Letter => "letter"
    | Contract => "contract"
    | Manual => "manual"
    | Presentation => "presentation"
    | AcademicPaper => "academic_paper"
    | Invoice => "invoice"
    | Resume => "resume"
    | Other => "other"
    end.

Definition type_of_name (s : JsString.t) : option DocumentType :=
  List.find (fun d => bool_decide (type_name d = s)) all_types.

Record DocumentMetadata : Type := {
  title : JsString.t;
  author : option JsString.t;
  summary : JsString.t;
  topics : list JsString.t;
  keywords : list JsString.t;
  documentType : DocumentType
}.

Definition to_json (m : DocumentMetadata) : json :=
  JObj
    [ ("title", JStr (title m));
      ("author", match author m with Some a => JStr a | None => JNull end);
      ("summary", JStr (summary m));
      ("topics", JArr (JStr <$> topics m));
      ("keywords", JArr (JStr <$> keywords m));
      ("documentType", JStr (type_name (documentType m))) ]%string.

Definition as_string (v : option json) : option JsString.t :=
  match v with
  | Some (JStr s) => Some s
  | _ => None
  end.

Definition as_nullable_string (v : option json) : option (option JsString.t) :=
  match v with
  | Some JNull => Some None
  | Some (JStr s) => Some (Some s)
  | _ => None
  end.

Definition as_string_array (v : option json) : option (list JsString.t) :=
  match v with
  | Some (JArr items) => mapM (fun x => as_string (Some x)) items
  | _ => None
  end.

(** [documentMetadataSchema.parse(value)], [None] when it throws. *)
Definition parse (v : json) : option DocumentMetadata :=
  match v with
  | JObj fields =>
      t ← as_string (assoc "title" fields);
      a ← as_nullable_string (assoc "author" fields);
      s ← as_string (assoc "summary" fields);
      ts ← as_string_array (assoc "topics" fields);
      ks ← as_string_array (assoc "keywords" fields);
      d ← as_string (assoc "documentType" fields) ≫= type_of_name;
      Some {| title := t; author := a; summary := s; topics := ts;
              keywords := ks; documentType := d |}
  | _ => None
  end.

(** The keys of the schema's shape. *)
Definition shape_keys : list string :=
  [ "title"; "author"; "summary"; "topics"; "keywords"; "documentType" ]%string.

End Metadata.

(** ** The API description (src/index.ts, [openApiSpec]) *)

Definition oa_type (type : string) : json :=
  JObj [("type"%string, JStr (JsString.lit type))].

Definition oa_description (description : string) : json :=
  JObj [("description"%string, JStr (JsString.lit description))].

Definition openApiSpec : json :=
  JObj
    [ ("openapi", JStr (JsString.lit "3.0.0"));
      ("info",
        JObj
          [ ("title", JStr (JsString.lit "PDF Metadata Extraction API"));
            ("version", JStr (JsString.lit "1.0.0"));
            ("description",
              JStr (JsString.lit
                "API that extracts structured metadata from PDF documents using AI")) ]);
      ("paths",
        JObj
          [ ("/",
              JObj
                [ ("get",
                    JObj
                      [ ("summary", JStr (JsString.lit "Health check"));
                        ("responses",
                          JObj [("200", oa_description "API status")]) ]) ]);
            ("/extract",
              JObj
                [ ("post",
                    JObj
                      [ ("summary",
                          JStr (JsString.lit "Extract metadata from PDF"));
                        ("requestBody",
                          JObj
                            [ ("required", JBool true);
                              ("content",
                                JObj
                                  [ ("multipart/form-data",
                                      JObj
                                        [ ("schema",
                                            JObj
                                              [ ("type", JStr (JsString.lit "object"));
                                                ("properties",
                                                  JObj
                                                    [ ("file",
                                                        JObj
                                                          [ ("type", JStr (JsString.lit "string"));
                                                            ("format", JStr (JsString.lit "binary"));
                                                            ("description",
                                                              JStr (JsString.lit "PDF file to analyze")) ]) ]);
                                                ("required",
                                                  JArr [JStr (JsString.lit "file")]) ]) ]) ]) ]);
                        ("responses",
                          JObj
                            [ ("200",
                                JObj
                                  [ ("description",
                                      JStr (JsString.lit "Extracted metadata"));
                                    ("content",
                                      JObj
                                        [ ("application/json",
                                            JObj
                                              [ ("schema",
                                                  JObj
                                                    [ ("type", JStr (JsString.lit "object"));
                                                      ("properties",
                                                        JObj
                                                          [ ("success", oa_type "boolean");
                                                            ("metadata",
                                                              JObj
                                                                [ ("type", JStr (JsString.lit "object"));
                                                                  ("properties",
                                                                    JObj
                                                                      [ ("title", oa_type "string");
                                                                        ("author",
                                                                          JObj
                                                                            [ ("type", JStr (JsString.lit "string"));
                                                                              ("nullable", JBool true) ]);
                                                                        ("summary", oa_type "string");
                                                                        ("topics",
                                                                          JObj
                                                                            [ ("type", JStr (JsString.lit "array"));
                                                                              ("items", oa_type "string") ]);
                                                                        ("keywords",
                                                                          JObj
                                                                            [ ("type", JStr (JsString.lit "array"));
                                                                              ("items", oa_type "string") ]);
                                                                        ("documentType", oa_type "string") ]) ]);
                                                            ("rawText", oa_type "string");
                                                            ("stats",
                                                              JObj
                                                                [ ("type", JStr (JsString.lit "object"));
                                                                  ("properties",
                                                                    JObj
                                                                      [ ("pageCount", oa_type "number");
                                                                        ("textLength", oa_type "number") ]) ]) ]) ]) ]) ]) ]);
                              ("400", oa_description "Invalid request");
                              ("422",
                                oa_description "Could not extract text from PDF");
                              ("500", oa_description "Server error") ]) ]) ]) ]) ]%string.

(** [app.get("/openapi.json", ...)] *)
Definition openapi_json (_ : Request) : Eff Response :=
  mret (c_json openApiSpec 200).

(** [v.k1.k2...]; [None] as soon as a key is missing. *)
Fixpoint get_path (path : list string) (v : json) : option json :=
  match path with
  | [] => Some v
  | key :: rest => get_field key v ≫= get_path rest
  end.

(** The key under which an OpenAPI [responses] object lists a status: its
    decimal numeral. *)
Definition status_key (code : Z) : string :=
  NilZero.string_of_int (Z.to_int code).

Definition extract_responses : list string :=
  [ "paths"; "/extract"; "post"; "responses" ]%string.

Definition extract_ok_properties : list string :=
  extract_responses
    ++ [ "200"; "content"; "application/json"; "schema"; "properties" ]%string.

(** The property names a path of the description lists. *)
Definition documented (path : list string) : list string :=
  from_option keys [] (get_path path openApiSpec).

(** The effects a computation adds when run from the empty log. *)
Definition effects_of {A : Type} (m : Eff A) : list event := snd (m []).

(** ** The test script (src/unnamed/part_000)

    The script posts one form with the field [file], a blob of the bytes it
    read under the file name [acme-ai-policy.pdf], and reads the JSON body of
    the response: on an [ok] response it saves the body and prints
    [stats.pageCount] and [stats.textLength], otherwise it prints [error].
    The lines it prints are represented by the values interpolated in
    them, [None] being [undefined]. *)

Module TestScript.

Definition file_name : JsString.t := JsString.lit "acme-ai-policy.pdf".

(** The form as the server parses it. *)
Definition upload (pdfBuffer : list byte) : Request :=
  {| parseBody :=
       inr {[ "file"%string :=
                FormFile {| name := Some file_name; content := pdfBuffer |} ]} |}.

(** [response.ok]: the status is in the range 200 to 299. *)
Definition ok (resp : Response) : bool :=
  (200 <=? status resp) && (status resp <=? 299).

Inductive outcome : Type :=
  (** [output.json] written with [saved]; the two statistics printed *)
| Saved (saved : json) (pageCount textLength : option json)
  (** the error printed *)
| Reported (error : option json)
  (** a [TypeError]: a property read from [undefined] or [null] *)
| Crashed.

(** The part of [main] after [await response.json()]. *)
Definition report (resp : Response) : outcome :=
  let data := body resp in
  if ok resp then
    match get_field "stats" data with
    | None | Some JNull => Crashed
    | Some stats =>
        Saved data (get_field "pageCount" stats) (get_field "textLength" stats)
    end
  else Reported (get_field "error" data).

End TestScript.

(** ** Further sample requests *)

Module Fixture.

(** A request whose body the parser rejects. *)
Definition malformed : Request :=
  {| parseBody := inl (ThrownError (JsString.lit "Malformed form body")) |}.

(** The report's metadata without its [author] key. *)
Definition anonymous_metadata : json :=
  JObj
    [ ("title", JStr (JsString.lit "Quarterly report"));
      ("summary", JStr (JsString.lit "Figures for the quarter."));
      ("topics", JArr [JStr (JsString.lit "finance")]);
      ("keywords", JArr [JStr (JsString.lit "revenue")]);
      ("documentType", JStr (JsString.lit "report")) ]%string.

(** A text that differs from [Sample.long_text] past the prompt budget. *)
Definition longer_text : JsString.t := Sample.long_text ++ [98%N].

Definition report_response : Response :=
  c_json
    (success_envelope Sample.report_metadata
       {| text := Sample.report_text; numpages := 5 |}) 200.

Definition report_log : list event :=
  [ PdfParse (content (Sample.the_file (Some "report.pdf"%string)));
    ConsoleLog [JStr (JsString.lit "Calling OpenAI...")];
    GenerateObject model_id (build_prompt Sample.report_text);
    ConsoleLog [JStr (JsString.lit "OpenAI response:"); JStr []] ].

End Fixture.

(** * Properties *)

(** ** String builtins *)

Lemma trimStart_nil_iff (s : JsString.t) :
  JsString.trimStart s = [] <-> blank s = true.
Proof.
  unfold blank. induction s as [|u s IH]; cbn; [tauto|].
  destruct (JsString.is_white_space u); cbn; [exact IH|].
  split; discriminate.
Qed.

Lemma trimStart_head (s : JsString.t) (u : N) (rest : JsString.t) :
  JsString.trimStart s = u :: rest -> JsString.is_white_space u = false.
Proof.
  induction s as [|v s IH]; cbn; [discriminate|].
  destruct (JsString.is_white_space v) eqn:Hv; [exact IH|].
  now intros [= -> _].
Qed.

Lemma blank_reverse (s : JsString.t) : blank (reverse s) = blank s.
Proof.
  unfold blank. apply Bool.eq_true_iff_eq.
  rewrite !forallb_forall. split; intros H x Hx; apply H.
  - apply list_elem_of_In. apply list_elem_of_In in Hx.
    now rewrite elem_of_reverse.
  - apply list_elem_of_In. apply list_elem_of_In in Hx.
    now rewrite elem_of_reverse in Hx.
Qed.

Lemma trim_nil_iff (s : JsString.t) :
  JsString.trim s = [] <-> blank s = true.
Proof.
  unfold JsString.trim, JsString.trimEnd. split.
  - intros H. apply (f_equal (@reverse N)) in H.
    rewrite reverse_involutive, reverse_nil in H.
    apply trimStart_nil_iff in H. rewrite blank_reverse in H.
    destruct (JsString.trimStart s) as [|u rest] eqn:Hs.
    + now apply trimStart_nil_iff.
    + apply trimStart_head in Hs. cbn in H. now rewrite Hs in H.
  - intros H. apply trimStart_nil_iff in H. now rewrite H.
Qed.

(** The emptiness guard rejects exactly the blank texts. *)
Lemma no_text_blank (s : JsString.t) : no_text s = blank s.
Proof.
  unfold no_text, JsString.length. apply Bool.eq_true_iff_eq.
  rewrite orb_true_iff, Z.eqb_eq, <- trim_nil_iff.
  split.
  - intros [H|H].
    + destruct s; [reflexivity|discriminate].
    + destruct (JsString.trim s); [reflexivity|discriminate].
  - intros ->. now right.
Qed.

(** [slice(0, n)] keeps the first [n] code units. *)
Lemma slice_prefix (s : JsString.t) (n : Z) :
  0 <= n -> JsString.slice s 0 n = take (Z.to_nat n) s.
Proof.
  intros Hn. unfold JsString.slice, JsString.relative_index, JsString.length.
  destruct (Z.ltb_spec 0 0); [lia|]. destruct (Z.ltb_spec n 0); [lia|].
  rewrite (Z.min_l 0) by lia.
  destruct (Z.leb_spec (Z.min n (Z.of_nat (List.length s))) 0) as [Hle|Hgt].
  - symmetry. destruct s as [|u s]; [now rewrite take_nil|].
    cbn [List.length] in Hle. replace n with 0 by lia. reflexivity.
  - rewrite Z.sub_0_r. change (drop (Z.to_nat 0) s) with s.
    destruct (Z.le_ge_cases n (Z.of_nat (List.length s))).
    + now rewrite Z.min_l.
    + rewrite Z.min_r, Nat2Z.id by lia.
      rewrite !take_ge by lia. reflexivity.
Qed.

Lemma slice_budget (s : JsString.t) :
  JsString.slice s 0 prompt_budget = truncated s.
Proof.
  rewrite slice_prefix by (unfold prompt_budget; lia).
  unfold truncated, JsString.length.
  destruct (Z.leb_spec (Z.of_nat (List.length s)) prompt_budget); [|reflexivity].
  apply take_ge. lia.
Qed.

Lemma includes_suffix (front s : JsString.t) :
  JsString.includes (front ++ s) s = true.
Proof.
  unfold JsString.includes. apply existsb_exists.
  exists (List.length front). split.
  - apply in_seq. rewrite length_app. lia.
  - rewrite drop_app_length, take_ge by lia. now apply bool_decide_eq_true.
Qed.

(** ** Running the handler *)

Section Runs.

Context `{rt : JsRuntime}.
Variable pdf : list byte -> thrown + PdfData.
Variable generateObject : GenerateObjectOptions -> thrown + json.

Lemma not_pdf_name_spec (file : File) :
  not_pdf_name file = negb (has_pdf_name file).
Proof.
  unfold not_pdf_name, has_pdf_name.
  destruct (name file) as [n|]; cbn; [|reflexivity].
  now rewrite toLowerCase_pdf_suffix.
Qed.

(** The presence check lets exactly the binary files through. *)
Lemma presence_check_spec (v : option FormValue) :
  presence_check v
  = match v with
    | Some (FormFile file) => Some file
    | _ => None
    end.
Proof.
  destruct v as [[s|file]|]; unfold presence_check; cbn; [|reflexivity..].
  now rewrite orb_true_r.
Qed.

Ltac run_handler :=
  unfold extract, try_catch, extract_try, extract_catch, call_pdf,
    call_generateObject, mbind, Eff_bind, mret, Eff_ret, settle, emit.

Ltac use_upload H :=
  let body := fresh "body" in
  let Hparse := fresh "Hparse" in
  let Hfile := fresh "Hfile" in
  destruct H as (body & Hparse & Hfile); run_handler;
  rewrite Hparse, Hfile, presence_check_spec, not_pdf_name_spec.

Lemma run_parse_rejected (req : Request) (cause : thrown) (log : list event) :
  parseBody req = inl cause ->
  extract pdf generateObject req log
  = (inr (c_json (error_body (failed_prefix ++ catch_message cause)) 500),
     log ++ [ConsoleError (JsString.lit "Error processing PDF:") cause]).
Proof.
  intros H. run_handler. rewrite H. now destruct cause.
Qed.

Lemma run_missing_file (req : Request) (body : gmap string FormValue)
    (log : list event) :
  parseBody req = inr body ->
  (body !! "file"%string = None
   \/ exists s, body !! "file"%string = Some (FormString s)) ->
  extract pdf generateObject req log
  = (inr (c_json (error_body missing_file_message) 400), log).
Proof.
  intros Hparse [Hfile|[s Hfile]]; run_handler;
    now rewrite Hparse, Hfile, presence_check_spec.
Qed.

Lemma run_unsupported (req : Request) (file : File) (log : list event) :
  uploaded req file ->
  has_pdf_name file = false ->
  extract pdf generateObject req log
  = (inr (c_json (error_body unsupported_type_message) 400), log).
Proof.
  intros Hup Hname. use_upload Hup. now rewrite Hname.
Qed.

Lemma run_extraction_failed (req : Request) (file : File) (cause : thrown)
    (log : list event) :
  uploaded req file ->
  has_pdf_name file = true ->
  pdf (content file) = inl cause ->
  extract pdf generateObject req log
  = (inr (c_json (error_body (failed_prefix ++ catch_message cause)) 500),
     log ++ [PdfParse (content file);
             ConsoleError (JsString.lit "Error processing PDF:") cause]).
Proof.
  intros Hup Hname Hpdf. use_upload Hup. rewrite Hname, Hpdf. cbn.
  rewrite <- app_assoc. now destruct cause.
Qed.

Lemma run_no_text (req : Request) (file : File) (pdfData : PdfData)
    (log : list event) :
  extracted pdf req file pdfData ->
  blank (text pdfData) = true ->
  extract pdf generateObject req log
  = (inr (c_json (error_body no_text_message) 422),
     log ++ [PdfParse (content file)]).
Proof.
  intros (Hup & Hname & Hpdf) Hblank. use_upload Hup.
  rewrite Hname, Hpdf. cbn. now rewrite no_text_blank, Hblank.
Qed.

Lemma run_generation_failed (req : Request) (file : File) (pdfData : PdfData)
    (cause : thrown) (log : list event) :
  extracted pdf req file pdfData ->
  blank (text pdfData) = false ->
  generateObject (generator_options (text pdfData)) = inl cause ->
  extract pdf generateObject req log
  = (inr (c_json (error_body (failed_prefix ++ catch_message cause)) 500),
     log ++ [PdfParse (content file);
             ConsoleLog [JStr (JsString.lit "Calling OpenAI...")];
             GenerateObject model_id (build_prompt (text pdfData));
             ConsoleError (JsString.lit "Error processing PDF:") cause]).
Proof.
  intros (Hup & Hname & Hpdf) Hblank Hgen. use_upload Hup.
  rewrite Hname, Hpdf. cbn -[generator_options].
  rewrite no_text_blank, Hblank, Hgen. cbn.
  rewrite <- !app_assoc. now destruct cause.
Qed.

Lemma run_success (req : Request) (file : File) (pdfData : PdfData)
    (object : json) (log : list event) :
  extracted pdf req file pdfData ->
  blank (text pdfData) = false ->
  generateObject (generator_options (text pdfData)) = inr object ->
  extract pdf generateObject req log
  = (inr (c_json (success_envelope object pdfData) 200),
     log ++ [PdfParse (content file);
             ConsoleLog [JStr (JsString.lit "Calling OpenAI...")];
             GenerateObject model_id (build_prompt (text pdfData));
             ConsoleLog [JStr (JsString.lit "OpenAI response:");
                         JStr (JSON_stringify object)]]).
Proof.
  intros (Hup & Hname & Hpdf) Hblank Hgen. use_upload Hup.
  rewrite Hname, Hpdf. cbn -[generator_options].
  rewrite no_text_blank, Hblank, Hgen. cbn.
  now rewrite <- !app_assoc.
Qed.

Lemma classify (req : Request) : run_case pdf generateObject req.
Proof.
  destruct (parseBody req) as [cause|body] eqn:Hparse.
  { now apply case_parse_rejected with cause. }
  destruct (body !! "file"%string) as [[s|file]|] eqn:Hfile.
  - apply case_failure with MissingFile. eapply fails_missing_string; eauto.
  - assert (uploaded req file) as Hup by (exists body; auto).
    destruct (has_pdf_name file) eqn:Hname.
    2: { apply case_failure with UnsupportedFileType.
         now apply fails_unsupported with file. }
    destruct (pdf (content file)) as [cause|pdfData] eqn:Hpdf.
    { apply case_failure with (ExtractionFailed cause).
      now apply fails_extraction with file. }
    assert (extracted pdf req file pdfData) as Hex by (repeat split; auto).
    destruct (blank (text pdfData)) eqn:Hblank.
    { apply case_failure with NoTextContent.
      now apply fails_no_text with file pdfData. }
    destruct (generateObject (generator_options (text pdfData)))
      as [cause|object] eqn:Hgen.
    + apply case_failure with (GenerationFailed cause).
      now apply fails_generation with file pdfData.
    + now apply case_success with file pdfData object.
  - apply case_failure with MissingFile. eapply fails_missing_absent; eauto.
Qed.

(** What the handler answers when the request meets a failure of the
    taxonomy. *)
Lemma run_failure (req : Request) (err : pipeline_error) (log : list event) :
  fails_with pdf generateObject req err ->
  exists message effects,
    extract pdf generateObject req log
    = (inr (c_json (error_body message) (http_status err)), log ++ effects)
    /\ message <> [].
Proof.
  intros Hfail. destruct Hfail.
  - exists missing_file_message, []. rewrite app_nil_r. split; [|discriminate].
    apply run_missing_file with form; auto.
  - exists missing_file_message, []. rewrite app_nil_r. split; [|discriminate].
    apply run_missing_file with form; eauto.
  - exists unsupported_type_message, []. rewrite app_nil_r.
    split; [|discriminate]. now apply run_unsupported with file.
  - eexists _, _.
    split; [apply (run_extraction_failed req file cause log); assumption|].
    unfold failed_prefix. discriminate.
  - eexists _, _.
    split; [apply (run_no_text req file pdfData log); assumption|discriminate].
  - eexists _, _.
    split; [apply (run_generation_failed req file pdfData cause log);
            assumption|].
    unfold failed_prefix. discriminate.
Qed.

(** A 200 is only ever answered on the path where both collaborators
    returned. *)
Lemma run_ok_inv (req : Request) (resp : Response) (log log' : list event) :
  extract pdf generateObject req log = (inr resp, log') ->
  status resp = 200 ->
  exists file pdfData object,
    extracted pdf req file pdfData
    /\ blank (text pdfData) = false
    /\ generateObject (generator_options (text pdfData)) = inr object
    /\ resp = c_json (success_envelope object pdfData) 200.
Proof.
  intros Hrun Hok.
  destruct (classify req) as [cause Hparse|err Hfail|file pdfData object Hex Hb Hg].
  - rewrite (run_parse_rejected _ _ _ Hparse) in Hrun.
    injection Hrun as <- _. discriminate.
  - destruct (run_failure req err log Hfail) as (message & effects & Hr & _).
    rewrite Hr in Hrun. injection Hrun as <- _.
    destruct Hfail; discriminate.
  - rewrite (run_success _ _ _ _ _ Hex Hb Hg) in Hrun.
    injection Hrun as <- _. now exists file, pdfData, object.
Qed.

(** The handler always answers: whatever the request and the collaborators
    do, it returns a response with one of four statuses and has called each
    collaborator at most once. *)
Lemma run_total (req : Request) (log : list event) :
  exists resp effects,
    extract pdf generateObject req log = (inr resp, log ++ effects)
    /\ (status resp = 200 \/ status resp = 400
        \/ status resp = 422 \/ status resp = 500)
    /\ (count_calls is_extractor_call effects <= 1)%nat
    /\ (count_calls is_generator_call effects <= 1)%nat.
Proof.
  destruct (classify req)
    as [cause Hparse|err Hfail|file pdfData object Hex Hb Hg].
  - eexists _, _. split; [apply (run_parse_rejected req cause log Hparse)|].
    cbn. repeat split; auto.
  - destruct Hfail.
    + exists (c_json (error_body missing_file_message) 400), [].
      rewrite app_nil_r. split; [apply run_missing_file with form; auto|].
      cbn. repeat split; auto.
    + exists (c_json (error_body missing_file_message) 400), [].
      rewrite app_nil_r. split; [apply run_missing_file with form; eauto|].
      cbn. repeat split; auto.
    + exists (c_json (error_body unsupported_type_message) 400), [].
      rewrite app_nil_r. split; [now apply run_unsupported with file|].
      cbn. repeat split; auto.
    + eexists _, _.
      split; [apply (run_extraction_failed req file cause log); assumption|].
      cbn. repeat split; auto.
    + eexists _, _.
      split; [apply (run_no_text req file pdfData log); assumption|].
      cbn. repeat split; auto.
    + eexists _, _.
      split; [apply (run_generation_failed req file pdfData cause log);
              assumption|].
      cbn. repeat split; auto.
  - eexists _, _.
    split; [apply (run_success req file pdfData object log); assumption|].
    cbn. repeat split; auto.
Qed.


End Runs.

(** ** The claims *)

Section Pipeline.

Context `{rt : JsRuntime}.
Variable pdf : list byte -> thrown + PdfData.
Variable generateObject : GenerateObjectOptions -> thrown + json.

(** C1.  When the parsed body has no [file] field, or has a plain string
    under it, the handler answers 400 with the MissingFile message and the
    effect log is returned as it was received: neither the Text Extractor nor
    the Metadata Generator is called. *)
Theorem C1_missing_file (req : Request) (form : gmap string FormValue)
    (log : list event) :
  parseBody req = inr form ->
  (form !! "file"%string = None
   \/ exists s, form !! "file"%string = Some (FormString s)) ->
  exists resp log',
    extract pdf generateObject req log = (inr resp, log')
    /\ status resp = 400
    /\ body resp = JObj [("error"%string, JStr missing_file_message)]
    /\ log' = log
    /\ fails_with pdf generateObject req MissingFile.
Proof.
  intros Hparse Hfile. eexists _, _. split.
  { now apply run_missing_file with form. }
  repeat split.
  destruct Hfile as [Hfile|[s Hfile]].
  - now apply fails_missing_absent with form.
  - now apply fails_missing_string with form s.
Qed.

(** C2.  When the uploaded file's name does not end in [.pdf], letters
    compared without case, the handler answers 400 with the
    UnsupportedFileType message and the effect log is unchanged, so the Text
    Extractor has not been called.  The answer is the same for every content
    of the file: the check reads the name only. *)
Theorem C2_unsupported_file_type (req : Request) (file : File)
    (n : JsString.t) (log : list event) :
  uploaded req file ->
  name file = Some n ->
  ends_with_pdf_ignoring_case n = false ->
  (exists resp log',
     extract pdf generateObject req log = (inr resp, log')
     /\ status resp = 400
     /\ body resp = JObj [("error"%string, JStr unsupported_type_message)]
     /\ log' = log)
  /\ forall other : list byte,
       not_pdf_name {| name := name file; content := other |}
       = not_pdf_name file.
Proof.
  intros Hup Hn Hsuffix. split.
  - eexists _, _. split.
    { apply run_unsupported with file; [assumption|].
      unfold has_pdf_name. now rewrite Hn. }
    repeat split.
  - reflexivity.
Qed.

(** C3.  When the upload passes the presence and type checks and the Text
    Extractor returns a text that is empty or white space only, the handler
    answers 422 with the NoTextContent message; the extractor has been called
    once and the Metadata Generator not at all. *)
Theorem C3_no_text_content (req : Request) (file : File) (pdfData : PdfData)
    (log : list event) :
  uploaded req file ->
  has_pdf_name file = true ->
  pdf (content file) = inr pdfData ->
  forallb JsString.is_white_space (text pdfData) = true ->
  exists resp effects,
    extract pdf generateObject req log = (inr resp, log ++ effects)
    /\ status resp = 422
    /\ body resp = JObj [("error"%string, JStr no_text_message)]
    /\ effects = [PdfParse (content file)]
    /\ count_calls is_generator_call effects = 0%nat.
Proof.
  intros Hup Hname Hpdf Hblank. eexists _, _. split.
  { apply run_no_text with pdfData;
      [exact (conj Hup (conj Hname Hpdf)) | exact Hblank]. }
  repeat split.
Qed.

(** C10.  A binary file whose [name] is [undefined] does not make the
    handler throw: the optional chain yields [undefined], the type check
    rejects the upload, and the answer is the 400 of UnsupportedFileType, the
    one a name without the [.pdf] suffix gets; no 500 is produced and no
    collaborator is called. *)
Theorem C10_undefined_file_name (req : Request) (file : File)
    (log : list event) :
  uploaded req file ->
  name file = None ->
  not_pdf_name file = true
  /\ extract_try pdf generateObject req log
     = (inr (c_json (error_body unsupported_type_message) 400), log)
  /\ extract pdf generateObject req log
     = (inr (c_json (error_body unsupported_type_message) 400), log).
Proof.
  intros Hup Hname.
  assert (has_pdf_name file = false) as Hpdf
    by (unfold has_pdf_name; now rewrite Hname).
  split; [|split].
  - unfold not_pdf_name. now rewrite Hname.
  - pose proof (run_unsupported pdf generateObject req file log Hup Hpdf) as H.
    unfold extract, try_catch in H.
    destruct (extract_try pdf generateObject req log) as [[e|r] l] eqn:E.
    + unfold extract_catch, mbind, Eff_bind, emit, mret, Eff_ret in H.
      destruct e; discriminate.
    + exact H.
  - now apply run_unsupported with file.
Qed.

(** C4.  On the path that reaches the Metadata Generator, the generator is
    called once, with the prompt made of the fixed header, the text [sent]
    and the fixed footer, where [sent] is the whole extracted text when that
    has at most 15,000 code units and its first 15,000 code units otherwise.
    When the generator returns, the response has the four fields of the
    envelope and no other, and [rawText] is the whole extracted text. *)
Theorem C4_prompt_truncation (req : Request) (file : File) (pdfData : PdfData)
    (log : list event) :
  uploaded req file ->
  has_pdf_name file = true ->
  pdf (content file) = inr pdfData ->
  blank (text pdfData) = false ->
  exists sent resp after,
    extract pdf generateObject req log
    = (inr resp,
       log ++ [PdfParse (content file);
               ConsoleLog [JStr (JsString.lit "Calling OpenAI...")];
               GenerateObject model_id (prompt_header ++ sent ++ prompt_footer)]
           ++ after)
    /\ count_calls is_generator_call after = 0%nat
    /\ (JsString.length (text pdfData) <= 15000 -> sent = text pdfData)
    /\ (15000 < JsString.length (text pdfData) ->
        sent = take (Z.to_nat 15000) (text pdfData)
        /\ JsString.length sent = 15000)
    /\ (forall object,
          generateObject (generator_options (text pdfData)) = inr object ->
          status resp = 200
          /\ keys (body resp)
             = ["success"; "metadata"; "rawText"; "stats"]%string
          /\ get_field "rawText" (body resp) = Some (JStr (text pdfData))
          /\ keys <$> get_field "stats" (body resp)
             = Some ["pageCount"; "textLength"]%string).
Proof.
  intros Hup Hname Hpdf Hblank.
  assert (extracted pdf req file pdfData) as Hex
    by exact (conj Hup (conj Hname Hpdf)).
  exists (truncated (text pdfData)).
  assert (build_prompt (text pdfData)
          = prompt_header ++ truncated (text pdfData) ++ prompt_footer) as <-
    by (unfold build_prompt; now rewrite slice_budget).
  assert (forall P : Prop, P ->
    (JsString.length (text pdfData) <= 15000 ->
       truncated (text pdfData) = text pdfData)
    /\ (15000 < JsString.length (text pdfData) ->
        truncated (text pdfData) = take (Z.to_nat 15000) (text pdfData)
        /\ JsString.length (truncated (text pdfData)) = 15000)
    /\ P) as Hsent.
  { intros P HP. unfold truncated, prompt_budget.
    destruct (Z.leb_spec (JsString.length (text pdfData)) 15000) as [Hle|Hgt].
    - split; [reflexivity|]. split; [lia|exact HP].
    - split; [lia|]. split; [|exact HP]. intros _. split; [reflexivity|].
      unfold JsString.length in *. rewrite length_take. lia. }
  destruct (generateObject (generator_options (text pdfData)))
    as [cause|object] eqn:Hgen.
  - eexists _, _. split.
    { apply (run_generation_failed pdf generateObject req file pdfData cause log);
        assumption. }
    split; [reflexivity|]. apply Hsent.
    intros object [=].
  - eexists _, _. split.
    { apply (run_success pdf generateObject req file pdfData object log);
        assumption. }
    split; [reflexivity|]. apply Hsent.
    intros object' [= <-]. repeat split.
Qed.

(** C5.  A response with status 200 is the envelope built from what the two
    collaborators returned for this upload: [success] is [true], [metadata]
    is the generator's object, [rawText] is the extractor's whole text,
    [stats.pageCount] is the extractor's page count and [stats.textLength] is
    the number of code units of [rawText]. *)
Theorem C5_response_envelope (req : Request) (resp : Response)
    (log log' : list event) :
  extract pdf generateObject req log = (inr resp, log') ->
  status resp = 200 ->
  exists file pdfData object rawText,
    uploaded req file
    /\ pdf (content file) = inr pdfData
    /\ generateObject (generator_options (text pdfData)) = inr object
    /\ get_field "success" (body resp) = Some (JBool true)
    /\ get_field "metadata" (body resp) = Some object
    /\ get_field "rawText" (body resp) = Some (JStr rawText)
    /\ rawText = text pdfData
    /\ get_field "stats" (body resp) ≫= get_field "pageCount"
       = Some (JNum (numpages pdfData))
    /\ get_field "stats" (body resp) ≫= get_field "textLength"
       = Some (JNum (Z.of_nat (List.length rawText))).
Proof.
  intros Hrun Hok.
  destruct (run_ok_inv pdf generateObject req resp log log' Hrun Hok)
    as (file & pdfData & object & (Hup & _ & Hpdf) & _ & Hgen & ->).
  exists file, pdfData, object, (text pdfData). repeat split; assumption.
Qed.

(** C6, as the code has it.  When the Text Extractor or the Metadata
    Generator throws, the handler returns (it does not throw) a response with
    status 500 whose only field [error] is the fixed prefix followed by the
    message of the thrown value if that is an [Error], and by the fixed text
    "Unknown error occurred" if it is any other value.  In the first case the
    reported text includes the thrown message.  The extractor has been called
    once and the generator at most once. *)
Theorem C6_collaborator_failure (req : Request) (file : File) (cause : thrown)
    (log : list event) :
  uploaded req file ->
  has_pdf_name file = true ->
  (pdf (content file) = inl cause
   \/ exists pdfData,
        pdf (content file) = inr pdfData
        /\ blank (text pdfData) = false
        /\ generateObject (generator_options (text pdfData)) = inl cause) ->
  exists resp reported effects,
    extract pdf generateObject req log = (inr resp, log ++ effects)
    /\ status resp = 500
    /\ body resp = JObj [("error"%string, JStr reported)]
    /\ (forall message, cause = ThrownError message ->
          reported = failed_prefix ++ message
          /\ JsString.includes reported message = true)
    /\ (forall value, cause = ThrownValue value ->
          reported = failed_prefix ++ unknown_error_message)
    /\ count_calls is_extractor_call effects = 1%nat
    /\ (count_calls is_generator_call effects <= 1)%nat.
Proof.
  intros Hup Hname Hthrow.
  assert (forall message, cause = ThrownError message ->
            failed_prefix ++ catch_message cause = failed_prefix ++ message
            /\ JsString.includes (failed_prefix ++ catch_message cause) message
               = true) as Hmsg.
  { intros message ->. split; [reflexivity|]. apply includes_suffix. }
  assert (forall value, cause = ThrownValue value ->
            failed_prefix ++ catch_message cause
            = failed_prefix ++ unknown_error_message) as Hval.
  { now intros value ->. }
  destruct Hthrow as [Hpdf|(pdfData & Hpdf & Hblank & Hgen)].
  - eexists _, _, _. split.
    { apply (run_extraction_failed pdf generateObject req file cause log);
        assumption. }
    repeat split; try assumption; try apply Hmsg; try apply Hval; auto.
  - eexists _, _, _. split.
    { apply (run_generation_failed pdf generateObject req file pdfData cause log);
        [exact (conj Hup (conj Hname Hpdf))|assumption..]. }
    repeat split; try assumption; try apply Hmsg; try apply Hval; auto.
Qed.


(** C8.  Provided the Metadata Generator only returns objects that the
    document metadata schema accepts, every response with status 200 has
    under [metadata.documentType] one of the ten strings of the schema. *)
Theorem C8_document_type (req : Request) (resp : Response)
    (log log' : list event) :
  (forall extractedText object,
     generateObject (generator_options extractedText) = inr object ->
     Schema.documentMetadataSchema (Some object) = true) ->
  extract pdf generateObject req log = (inr resp, log') ->
  status resp = 200 ->
  exists documentType : string,
    get_field "metadata" (body resp) ≫= get_field "documentType"
    = Some (JStr (JsString.lit documentType))
    /\ documentType ∈
         [ "report"; "article"; "letter"; "contract"; "manual";
           "presentation"; "academic_paper"; "invoice"; "resume";
           "other" ]%string.
Proof.
  intros Hvalid Hrun Hok.
  destruct (run_ok_inv pdf generateObject req resp log log' Hrun Hok)
    as (file & pdfData & object & _ & _ & Hgen & ->).
  apply Hvalid in Hgen. cbn [body c_json success_envelope get_field assoc
    String.eqb Ascii.eqb Bool.eqb mbind option_bind].
  unfold Schema.documentMetadataSchema, Schema.z_object in Hgen.
  destruct object as [| | | | |fields]; try discriminate.
  cbn [forallb fst snd] in Hgen.
  rewrite !andb_true_iff in Hgen.
  destruct Hgen as (_ & _ & _ & _ & _ & Henum & _).
  cbn [get_field]. unfold Schema.z_enum in Henum.
  destruct (assoc "documentType" fields) as [[| | |s| |]|]; try discriminate.
  apply bool_decide_eq_true in Henum. unfold Schema.documentTypes in Henum.
  apply list_elem_of_fmap in Henum as (documentType & -> & Hin).
  now exists documentType.
Qed.

End Pipeline.

(** C9.  The health check ignores the request and the effect log it runs
    in: it returns the same status object with status 200 for any two
    invocations, and leaves the log as it found it. *)
Theorem C9_health_constant (req1 req2 : Request) (log1 log2 : list event) :
  health req1 log1 = (inr (c_json health_body 200), log1)
  /\ health req2 log2 = (inr (c_json health_body 200), log2)
  /\ fst (health req1 log1) = fst (health req2 log2).
Proof. repeat split. Qed.

(** ** The claims on the sample requests *)

Lemma C1_missing_file_witness :
  exists resp log',
    extract (Sample.extractor Sample.report_text 5) Sample.generator
      Sample.no_upload [] = (inr resp, log')
    /\ status resp = 400
    /\ body resp = JObj [("error"%string, JStr missing_file_message)]
    /\ log' = []
    /\ fails_with (Sample.extractor Sample.report_text 5) Sample.generator
         Sample.no_upload MissingFile.
Proof.
  apply (C1_missing_file (Sample.extractor Sample.report_text 5)
           Sample.generator Sample.no_upload ∅ []).
  - reflexivity.
  - left. reflexivity.
Defined.

Lemma C2_unsupported_file_type_witness :
  (exists resp log',
     extract (Sample.extractor Sample.report_text 5) Sample.generator
       (Sample.upload (Some "notes.txt"%string)) [] = (inr resp, log')
     /\ status resp = 400
     /\ body resp = JObj [("error"%string, JStr unsupported_type_message)]
     /\ log' = [])
  /\ forall other : list byte,
       not_pdf_name
         {| name := name (Sample.the_file (Some "notes.txt"%string));
            content := other |}
       = not_pdf_name (Sample.the_file (Some "notes.txt"%string)).
Proof.
  apply (C2_unsupported_file_type (Sample.extractor Sample.report_text 5)
           Sample.generator (Sample.upload (Some "notes.txt"%string))
           (Sample.the_file (Some "notes.txt"%string))
           (JsString.lit "notes.txt") []).
  - eexists. split; reflexivity.
  - reflexivity.
  - reflexivity.
Defined.

Lemma C3_no_text_content_witness :
  exists resp effects,
    extract (Sample.extractor (JsString.lit "   ") 2) Sample.generator
      (Sample.upload (Some "scan.pdf"%string)) [] = (inr resp, [] ++ effects)
    /\ status resp = 422
    /\ body resp = JObj [("error"%string, JStr no_text_message)]
    /\ effects = [PdfParse (content (Sample.the_file (Some "scan.pdf"%string)))]
    /\ count_calls is_generator_call effects = 0%nat.
Proof.
  apply (C3_no_text_content (Sample.extractor (JsString.lit "   ") 2)
           Sample.generator (Sample.upload (Some "scan.pdf"%string))
           (Sample.the_file (Some "scan.pdf"%string))
           {| text := JsString.lit "   "; numpages := 2 |} []).
  - eexists. split; reflexivity.
  - reflexivity.
  - reflexivity.
  - reflexivity.
Defined.

Lemma C10_undefined_file_name_witness :
  not_pdf_name (Sample.the_file None) = true
  /\ extract_try (Sample.extractor Sample.report_text 5) Sample.generator
       (Sample.upload None) []
     = (inr (c_json (error_body unsupported_type_message) 400), [])
  /\ extract (Sample.extractor Sample.report_text 5) Sample.generator
       (Sample.upload None) []
     = (inr (c_json (error_body unsupported_type_message) 400), []).
Proof.
  apply (C10_undefined_file_name (Sample.extractor Sample.report_text 5)
           Sample.generator (Sample.upload None) (Sample.the_file None) []).
  - eexists. split; reflexivity.
  - reflexivity.
Defined.

Lemma C4_prompt_truncation_witness :
  exists sent resp after,
    extract (Sample.extractor Sample.long_text 3) Sample.generator
      (Sample.upload (Some "big.PDF"%string)) []
    = (inr resp,
       [] ++ [PdfParse (content (Sample.the_file (Some "big.PDF"%string)));
              ConsoleLog [JStr (JsString.lit "Calling OpenAI...")];
              GenerateObject model_id (prompt_header ++ sent ++ prompt_footer)]
          ++ after)
    /\ count_calls is_generator_call after = 0%nat
    /\ (JsString.length Sample.long_text <= 15000 -> sent = Sample.long_text)
    /\ (15000 < JsString.length Sample.long_text ->
        sent = take (Z.to_nat 15000) Sample.long_text
        /\ JsString.length sent = 15000)
    /\ (forall object,
          Sample.generator (generator_options Sample.long_text) = inr object ->
          status resp = 200
          /\ keys (body resp)
             = ["success"; "metadata"; "rawText"; "stats"]%string
          /\ get_field "rawText" (body resp) = Some (JStr Sample.long_text)
          /\ keys <$> get_field "stats" (body resp)
             = Some ["pageCount"; "textLength"]%string).
Proof.
  apply (C4_prompt_truncation (Sample.extractor Sample.long_text 3)
           Sample.generator (Sample.upload (Some "big.PDF"%string))
           (Sample.the_file (Some "big.PDF"%string))
           {| text := Sample.long_text; numpages := 3 |} []).
  - eexists. split; reflexivity.
  - reflexivity.
  - reflexivity.
  - vm_compute. reflexivity.
Defined.

Lemma C5_response_envelope_witness :
  exists file pdfData object rawText,
    uploaded (Sample.upload (Some "report.pdf"%string)) file
    /\ Sample.extractor Sample.report_text 5 (content file) = inr pdfData
    /\ Sample.generator (generator_options (text pdfData)) = inr object
    /\ get_field "success"
         (success_envelope Sample.report_metadata
            {| text := Sample.report_text; numpages := 5 |})
       = Some (JBool true)
    /\ get_field "metadata"
         (success_envelope Sample.report_metadata
            {| text := Sample.report_text; numpages := 5 |})
       = Some object
    /\ get_field "rawText"
         (success_envelope Sample.report_metadata
            {| text := Sample.report_text; numpages := 5 |})
       = Some (JStr rawText)
    /\ rawText = text pdfData
    /\ get_field "stats"
         (success_envelope Sample.report_metadata
            {| text := Sample.report_text; numpages := 5 |})
       ≫= get_field "pageCount"
       = Some (JNum (numpages pdfData))
    /\ get_field "stats"
         (success_envelope Sample.report_metadata
            {| text := Sample.report_text; numpages := 5 |})
       ≫= get_field "textLength"
       = Some (JNum (Z.of_nat (List.length rawText))).
Proof.
  apply (C5_response_envelope (Sample.extractor Sample.report_text 5)
           Sample.generator (Sample.upload (Some "report.pdf"%string))
           (c_json
              (success_envelope Sample.report_metadata
                 {| text := Sample.report_text; numpages := 5 |}) 200)
           []
           [PdfParse (content (Sample.the_file (Some "report.pdf"%string)));
            ConsoleLog [JStr (JsString.lit "Calling OpenAI...")];
            GenerateObject model_id (build_prompt Sample.report_text);
            ConsoleLog [JStr (JsString.lit "OpenAI response:"); JStr []]]).
  - vm_compute. reflexivity.
  - reflexivity.
Defined.

Lemma C6_collaborator_failure_witness :
  exists resp reported effects,
    extract (Sample.extractor Sample.report_text 5)
      (Sample.failing_generator (ThrownError Sample.quota_exceeded))
      (Sample.upload (Some "report.pdf"%string)) []
    = (inr resp, [] ++ effects)
    /\ status resp = 500
    /\ body resp = JObj [("error"%string, JStr reported)]
    /\ (forall message, ThrownError Sample.quota_exceeded = ThrownError message ->
          reported = failed_prefix ++ message
          /\ JsString.includes reported message = true)
    /\ (forall value, ThrownError Sample.quota_exceeded = ThrownValue value ->
          reported = failed_prefix ++ unknown_error_message)
    /\ count_calls is_extractor_call effects = 1%nat
    /\ (count_calls is_generator_call effects <= 1)%nat.
Proof.
  apply (C6_collaborator_failure (Sample.extractor Sample.report_text 5)
           (Sample.failing_generator (ThrownError Sample.quota_exceeded))
           (Sample.upload (Some "report.pdf"%string))
           (Sample.the_file (Some "report.pdf"%string))
           (ThrownError Sample.quota_exceeded) []).
  - eexists. split; reflexivity.
  - reflexivity.
  - right. exists {| text := Sample.report_text; numpages := 5 |}.
    split; [reflexivity|]. split; [vm_compute; reflexivity|reflexivity].
Defined.

(** C6 as the specification words it fails when the thrown value is not an
    [Error]: the extractor throws the string "quota exceeded" for
    [report.pdf], and the text reported with the 500 does not include it. *)
Lemma C6_thrown_string_counterexample :
  uploaded (Sample.upload (Some "report.pdf"%string))
    (Sample.the_file (Some "report.pdf"%string))
  /\ Sample.failing_extractor (ThrownValue (JStr Sample.quota_exceeded))
       (content (Sample.the_file (Some "report.pdf"%string)))
     = inl (ThrownValue (JStr Sample.quota_exceeded))
  /\ ~ exists reported,
         fst (extract
                (Sample.failing_extractor
                   (ThrownValue (JStr Sample.quota_exceeded)))
                Sample.generator (Sample.upload (Some "report.pdf"%string)) [])
         = inr (c_json (error_body reported) 500)
         /\ JsString.includes reported Sample.quota_exceeded = true.
Proof.
  split; [eexists; split; reflexivity|]. split; [reflexivity|].
  intros (reported & Hrun & Hincludes).
  vm_compute in Hrun. injection Hrun as <-.
  vm_compute in Hincludes. discriminate.
Qed.


Lemma C8_document_type_witness :
  exists documentType : string,
    get_field "metadata"
      (success_envelope Sample.report_metadata
         {| text := Sample.report_text; numpages := 5 |})
    ≫= get_field "documentType"
    = Some (JStr (JsString.lit documentType))
    /\ documentType ∈
         [ "report"; "article"; "letter"; "contract"; "manual";
           "presentation"; "academic_paper"; "invoice"; "resume";
           "other" ]%string.
Proof.
  apply (C8_document_type (Sample.extractor Sample.report_text 5)
           Sample.generator (Sample.upload (Some "report.pdf"%string))
           (c_json
              (success_envelope Sample.report_metadata
                 {| text := Sample.report_text; numpages := 5 |}) 200)
           []
           [PdfParse (content (Sample.the_file (Some "report.pdf"%string)));
            ConsoleLog [JStr (JsString.lit "Calling OpenAI...")];
            GenerateObject model_id (build_prompt Sample.report_text);
            ConsoleLog [JStr (JsString.lit "OpenAI response:"); JStr []]]).
  - intros extractedText object [= <-]. reflexivity.
  - vm_compute. reflexivity.
  - reflexivity.
Defined.

(** * Further properties of the handlers *)

(** Case analysis of a run: each branch of [classify], with the result of
    the handler rewritten in the goal. *)
Ltac by_stage pdf generateObject req log :=
  let cause := fresh "cause" in
  let Hparse := fresh "Hparse" in
  let Hfail := fresh "Hfail" in
  let err := fresh "err" in
  destruct (classify pdf generateObject req)
    as [cause Hparse|err Hfail|file pdfData object Hex Hblank Hgen];
  [ rewrite (run_parse_rejected pdf generateObject req cause log Hparse)
  | destruct Hfail as [form Hparse Hfile|form s Hparse Hfile|file Hup Hname
                      |file cause' Hup Hname Hpdf|file pdfData Hex Hblank
                      |file pdfData cause' Hex Hblank Hgen];
    [ rewrite (run_missing_file pdf generateObject req form log Hparse
                 (or_introl Hfile))
    | rewrite (run_missing_file pdf generateObject req form log Hparse
                 (or_intror (ex_intro _ s Hfile)))
    | rewrite (run_unsupported pdf generateObject req file log Hup Hname)
    | rewrite (run_extraction_failed pdf generateObject req file cause' log
                 Hup Hname Hpdf)
    | rewrite (run_no_text pdf generateObject req file pdfData log Hex Hblank)
    | rewrite (run_generation_failed pdf generateObject req file pdfData
                 cause' log Hex Hblank Hgen) ]
  | rewrite (run_success pdf generateObject req file pdfData object log
               Hex Hblank Hgen) ].

Section Stages.

Context `{rt : JsRuntime}.
Variable pdf : list byte -> thrown + PdfData.
Variable generateObject : GenerateObjectOptions -> thrown + json.

Lemma uploaded_inj (req : Request) (f1 f2 : File) :
  uploaded req f1 -> uploaded req f2 -> f1 = f2.
Proof.
  intros (b1 & Hp1 & Hf1) (b2 & Hp2 & Hf2). congruence.
Qed.

Lemma extracted_inj (req : Request) (f1 f2 : File) (d1 d2 : PdfData) :
  extracted pdf req f1 d1 -> extracted pdf req f2 d2 -> f1 = f2 /\ d1 = d2.
Proof.
  intros (Hu1 & _ & Hd1) (Hu2 & _ & Hd2).
  pose proof (uploaded_inj req f1 f2 Hu1 Hu2) as ->. split; congruence.
Qed.

Ltac absurd_upload :=
  repeat match goal with
  | H : extracted _ _ _ _ |- _ => destruct H as (? & ? & ?)
  end;
  match goal with
  | Hup : uploaded ?req _, Hparse : parseBody ?req = _ |- _ =>
      destruct Hup as (? & ? & ?); congruence
  | Hup1 : uploaded ?req ?f1, Hup2 : uploaded ?req ?f2 |- _ =>
      pose proof (uploaded_inj req f1 f2 Hup1 Hup2); subst; congruence
  end.

Lemma extractor_call_inv (req : Request) (buffer : list byte) :
  In (PdfParse buffer) (effects_of (extract pdf generateObject req)) ->
  exists file,
    uploaded req file /\ has_pdf_name file = true /\ buffer = content file.
Proof.
  unfold effects_of. by_stage pdf generateObject req (@nil event); cbn [snd app In];
    intros Hin; repeat destruct Hin as [Hin|Hin];
    try discriminate Hin; try contradiction;
    injection Hin as <-; exists file; try destruct Hex as (Hup & Hname & _);
    auto.
Qed.

Lemma extractor_call_intro (req : Request) (f : File) :
  uploaded req f ->
  has_pdf_name f = true ->
  In (PdfParse (content f)) (effects_of (extract pdf generateObject req)).
Proof.
  intros Hup' Hname'. unfold effects_of.
  by_stage pdf generateObject req (@nil event); cbn [snd app In]; try absurd_upload.
  all: try destruct Hex as (Hup & Hname & Hpdf).
  all: pose proof (uploaded_inj req _ _ Hup' Hup) as ->; now left.
Qed.

Lemma generator_call_inv (req : Request) (m : string) (p : JsString.t) :
  In (GenerateObject m p) (effects_of (extract pdf generateObject req)) ->
  m = model_id
  /\ exists file pdfData,
       extracted pdf req file pdfData
       /\ blank (text pdfData) = false
       /\ p = build_prompt (text pdfData).
Proof.
  unfold effects_of. by_stage pdf generateObject req (@nil event); cbn [snd app In];
    intros Hin; repeat destruct Hin as [Hin|Hin];
    try discriminate Hin; try contradiction;
    injection Hin as <- <-; (split; [reflexivity|]);
    now exists file, pdfData.
Qed.

Lemma generator_call_intro (req : Request) (f : File) (d : PdfData) :
  extracted pdf req f d ->
  blank (text d) = false ->
  In (GenerateObject model_id (build_prompt (text d)))
    (effects_of (extract pdf generateObject req)).
Proof.
  intros Hex' Hblank'. unfold effects_of.
  by_stage pdf generateObject req (@nil event); cbn [snd app In].
  all: try (destruct (extracted_inj req _ _ _ _ Hex' Hex) as [-> ->]).
  all: try congruence.
  all: try (right; right; now left).
  all: destruct Hex' as (Hup' & Hname' & Hpdf'); try absurd_upload.
Qed.

Lemma effects_call_counts (req : Request) :
  (count_calls is_extractor_call
     (effects_of (extract pdf generateObject req)) <= 1)%nat
  /\ (count_calls is_generator_call
        (effects_of (extract pdf generateObject req)) <= 1)%nat
  /\ forall m p before after,
       effects_of (extract pdf generateObject req)
       = before ++ GenerateObject m p :: after ->
       count_calls is_extractor_call before = 1%nat.
Proof.
  unfold effects_of. by_stage pdf generateObject req (@nil event); cbn [snd app];
    (split; [cbn; lia|split; [cbn; lia|]]);
    intros m p before after Heq;
    repeat (destruct before as [|? before];
            [try discriminate Heq|injection Heq as <- Heq]);
    try discriminate Heq; try (destruct before; discriminate Heq);
    reflexivity.
Qed.

Lemma build_prompt_length (extractedText : JsString.t) :
  JsString.length (build_prompt extractedText)
  = 82 + Z.min (JsString.length extractedText) 15000.
Proof.
  unfold build_prompt. rewrite slice_budget.
  unfold JsString.length. rewrite !length_app.
  change (List.length prompt_header) with 78%nat.
  change (List.length prompt_footer) with 4%nat.
  unfold truncated, prompt_budget, JsString.length.
  destruct (Z.leb_spec (Z.of_nat (List.length extractedText)) 15000).
  - lia.
  - rewrite length_take. lia.
Qed.

(** X3.  The Text Extractor is called exactly when the request carries a
    binary file whose name ends in [.pdf], and what it receives are the
    bytes of that file; it is called at most once per request. *)
Theorem X3_extractor_called_on_pdf_upload (req : Request) :
  (forall buffer : list byte,
     In (PdfParse buffer) (effects_of (extract pdf generateObject req))
     <-> exists file,
           uploaded req file /\ has_pdf_name file = true
           /\ buffer = content file)
  /\ (count_calls is_extractor_call
        (effects_of (extract pdf generateObject req)) <= 1)%nat.
Proof.
  split; [|apply effects_call_counts].
  intros buffer. split; [apply extractor_call_inv|].
  intros (file & Hup & Hname & ->). now apply extractor_call_intro.
Qed.

(** X4.  The Metadata Generator is called exactly when the extractor
    returned a text that is not blank; it then receives the fixed model
    identifier and the prompt built from that text.  It is called at most
    once, and the one extractor call comes before it. *)
Theorem X4_generator_called_on_text (req : Request) :
  (forall (m : string) (p : JsString.t),
     In (GenerateObject m p) (effects_of (extract pdf generateObject req))
     <-> m = model_id
         /\ exists file pdfData,
              extracted pdf req file pdfData
              /\ blank (text pdfData) = false
              /\ p = build_prompt (text pdfData))
  /\ (count_calls is_generator_call
        (effects_of (extract pdf generateObject req)) <= 1)%nat
  /\ (forall m p before after,
        effects_of (extract pdf generateObject req)
        = before ++ GenerateObject m p :: after ->
        count_calls is_extractor_call before = 1%nat).
Proof.
  split; [|apply effects_call_counts].
  intros m p. split; [apply generator_call_inv|].
  intros (-> & file & pdfData & Hex & Hblank & ->).
  now apply generator_call_intro with file.
Qed.

(** X5.  Whatever the size of the document, a prompt handed to the
    generator has at most 15,082 code units: the 82 of the fixed frame and
    at most 15,000 of text.  It has exactly 82 more than the text when the
    text has 15,000 code units or fewer. *)
Theorem X5_prompt_bounded (req : Request) (m : string) (p : JsString.t) :
  In (GenerateObject m p) (effects_of (extract pdf generateObject req)) ->
  82 < JsString.length p <= 15082
  /\ exists extractedText,
       p = prompt_header ++ JsString.slice extractedText 0 15000
             ++ prompt_footer
       /\ JsString.length p = 82 + Z.min (JsString.length extractedText) 15000.
Proof.
  intros Hin. apply generator_call_inv in Hin
    as (_ & file & pdfData & _ & Hblank & ->).
  pose proof (build_prompt_length (text pdfData)) as Hlen.
  split.
  - rewrite Hlen. destruct (text pdfData) as [|u rest]; [discriminate|].
    unfold JsString.length. cbn [List.length]. lia.
  - now exists (text pdfData).
Qed.

(** X1.  When parsing the form body rejects, the handler answers 500 with
    the prefix followed by the message the [catch] block derives from the
    thrown value; the rejection is written to the error console and neither
    collaborator is called. *)
Theorem X1_parse_rejected (req : Request) (cause : thrown) (log : list event) :
  parseBody req = inl cause ->
  exists resp effects,
    extract pdf generateObject req log = (inr resp, log ++ effects)
    /\ status resp = 500
    /\ body resp
       = JObj [("error"%string, JStr (failed_prefix ++ catch_message cause))]
    /\ effects = [ConsoleError (JsString.lit "Error processing PDF:") cause]
    /\ count_calls is_extractor_call effects = 0%nat
    /\ count_calls is_generator_call effects = 0%nat.
Proof.
  intros Hparse. eexists _, _. split.
  { exact (run_parse_rejected pdf generateObject req cause log Hparse). }
  repeat split.
Qed.

(** X2.  The status of a response tells the stage that ended the run: a 400
    means the presence or the type check failed and nothing was logged or
    called; a 422 means the extractor returned a blank text; a 500 means the
    body parser, the extractor or the generator threw. *)
Theorem X2_status_identifies_stage (req : Request) (resp : Response)
    (log log' : list event) :
  extract pdf generateObject req log = (inr resp, log') ->
  (status resp = 400 ->
     log' = log
     /\ (fails_with pdf generateObject req MissingFile
         \/ fails_with pdf generateObject req UnsupportedFileType))
  /\ (status resp = 422 -> fails_with pdf generateObject req NoTextContent)
  /\ (status resp = 500 ->
        (exists cause, parseBody req = inl cause)
        \/ (exists cause,
              fails_with pdf generateObject req (ExtractionFailed cause)
              \/ fails_with pdf generateObject req (GenerationFailed cause))).
Proof.
  by_stage pdf generateObject req log; intros [= <- <-]; cbn [status c_json];
    (split; [|split]); intros Hstatus; try discriminate Hstatus.
  - left. now exists cause.
  - split; [reflexivity|]. left. now apply fails_missing_absent with form.
  - split; [reflexivity|]. left. now apply fails_missing_string with form s.
  - split; [reflexivity|]. right. now apply fails_unsupported with file.
  - right. exists cause'. left. now apply fails_extraction with file.
  - now apply fails_no_text with file pdfData.
  - right. exists cause'. right. now apply fails_generation with file pdfData.
Qed.

End Stages.

(** X6.  The generator is shown the first 15,000 code units of the text
    and nothing else: two runs on the same upload whose extractions agree on
    them make the same single call to the generator, whatever follows in
    either text and whatever the provider answers in either run.  When the
    provider gives the two calls the same answer, the two responses have the
    same status and the same [metadata]. *)
Theorem X6_generator_call_depends_on_prefix `{rt : JsRuntime}
    (pdf1 pdf2 : list byte -> thrown + PdfData)
    (generateObject1 generateObject2 : GenerateObjectOptions -> thrown + json)
    (req : Request) (file : File) (d1 d2 : PdfData) :
  uploaded req file ->
  has_pdf_name file = true ->
  pdf1 (content file) = inr d1 ->
  pdf2 (content file) = inr d2 ->
  blank (text d1) = false ->
  blank (text d2) = false ->
  take (Z.to_nat 15000) (text d1) = take (Z.to_nat 15000) (text d2) ->
  generator_options (text d1) = generator_options (text d2)
  /\ exists r1 r2 e1 e2,
       extract pdf1 generateObject1 req [] = (inr r1, e1)
       /\ extract pdf2 generateObject2 req [] = (inr r2, e2)
       /\ List.filter is_generator_call e1
          = [GenerateObject model_id
               (prompt_header ++ take (Z.to_nat 15000) (text d1)
                  ++ prompt_footer)]
       /\ List.filter is_generator_call e2 = List.filter is_generator_call e1
       /\ (generateObject1 (generator_options (text d1))
           = generateObject2 (generator_options (text d2)) ->
           status r1 = status r2
           /\ get_field "metadata" (body r1) = get_field "metadata" (body r2)).
Proof.
  intros Hup Hname Hpdf1 Hpdf2 Hb1 Hb2 Hprefix.
  assert (forall t, build_prompt t
                    = prompt_header ++ take (Z.to_nat 15000) t ++ prompt_footer)
    as Hbuild.
  { intros t. unfold build_prompt, prompt_budget.
    now rewrite slice_prefix by lia. }
  assert (build_prompt (text d2) = build_prompt (text d1)) as Hprompt
    by now rewrite !Hbuild, Hprefix.
  assert (generator_options (text d1) = generator_options (text d2)) as Hopt.
  { unfold generator_options. now rewrite Hprompt. }
  split; [exact Hopt|].
  assert (extracted pdf1 req file d1) as Hex1
    by exact (conj Hup (conj Hname Hpdf1)).
  assert (extracted pdf2 req file d2) as Hex2
    by exact (conj Hup (conj Hname Hpdf2)).
  destruct (generateObject1 (generator_options (text d1)))
    as [cause1|object1] eqn:Hgen1;
    destruct (generateObject2 (generator_options (text d2)))
      as [cause2|object2] eqn:Hgen2;
    eexists _, _, _, _.
  - split; [exact (run_generation_failed pdf1 generateObject1 req file d1
                     cause1 [] Hex1 Hb1 Hgen1)|].
    split; [exact (run_generation_failed pdf2 generateObject2 req file d2
                     cause2 [] Hex2 Hb2 Hgen2)|].
    rewrite Hprompt, Hbuild. repeat split.
  - split; [exact (run_generation_failed pdf1 generateObject1 req file d1
                     cause1 [] Hex1 Hb1 Hgen1)|].
    split; [exact (run_success pdf2 generateObject2 req file d2
                     object2 [] Hex2 Hb2 Hgen2)|].
    rewrite Hprompt, Hbuild. repeat split; discriminate.
  - split; [exact (run_success pdf1 generateObject1 req file d1
                     object1 [] Hex1 Hb1 Hgen1)|].
    split; [exact (run_generation_failed pdf2 generateObject2 req file d2
                     cause2 [] Hex2 Hb2 Hgen2)|].
    rewrite Hprompt, Hbuild. repeat split; discriminate.
  - split; [exact (run_success pdf1 generateObject1 req file d1
                     object1 [] Hex1 Hb1 Hgen1)|].
    split; [exact (run_success pdf2 generateObject2 req file d2
                     object2 [] Hex2 Hb2 Hgen2)|].
    rewrite Hprompt, Hbuild. split; [reflexivity|]. split; [reflexivity|].
    intros [= ->]. split; reflexivity.
Qed.

(** ** The metadata schema and its type *)

Lemma type_of_name_name (d : Metadata.DocumentType) :
  Metadata.type_of_name (Metadata.type_name d) = Some d.
Proof. now destruct d. Qed.

Lemma type_of_name_Some (s : JsString.t) (d : Metadata.DocumentType) :
  Metadata.type_of_name s = Some d -> s = Metadata.type_name d.
Proof.
  intros H. apply find_some in H as [_ H].
  apply bool_decide_eq_true in H. now symmetry.
Qed.

Lemma documentTypes_names :
  Schema.documentTypes = Metadata.type_name <$> Metadata.all_types.
Proof. reflexivity. Qed.

Lemma z_string_as_string (v : option json) :
  Schema.z_string v = true <-> is_Some (Metadata.as_string v).
Proof.
  destruct v as [[| | |s| |]|]; cbn; split;
    try discriminate; try (intros [? [=]]); eauto.
Qed.

Lemma z_nullable_as_nullable (v : option json) :
  Schema.z_nullable Schema.z_string v = true
  <-> is_Some (Metadata.as_nullable_string v).
Proof.
  destruct v as [[| | |s| |]|]; cbn; split;
    try discriminate; try (intros [? [=]]); eauto.
Qed.

Lemma mapM_as_string_fmap (l : list JsString.t) :
  mapM (fun x => Metadata.as_string (Some x)) (JStr <$> l) = Some l.
Proof.
  induction l as [|s l IH]; [reflexivity|].
  cbn in *. now rewrite IH.
Qed.

Lemma mapM_as_string_Some (items : list json) (l : list JsString.t) :
  mapM (fun x => Metadata.as_string (Some x)) items = Some l ->
  items = JStr <$> l.
Proof.
  revert l. induction items as [|x items IH]; intros l.
  - now intros [= <-].
  - cbn. destruct x as [| | |s| |]; try discriminate. cbn.
    destruct (mapM _ items) as [l'|]; [|discriminate].
    cbn. intros [= <-]. cbn. now rewrite (IH l').
Qed.

Lemma z_array_as_string_array (v : option json) :
  Schema.z_array Schema.z_string v = true
  <-> is_Some (Metadata.as_string_array v).
Proof.
  destruct v as [[| | | |items|]|]; cbn;
    try (split; [discriminate|intros [? [=]]]).
  induction items as [|x items IH]; cbn.
  - split; eauto.
  - destruct x as [| | |s| |]; cbn;
      try (split; [discriminate|intros [? [=]]]).
    rewrite IH. destruct (mapM _ items); cbn; split; eauto;
      intros [? [=]].
Qed.

Lemma z_enum_as_type (v : option json) :
  Schema.z_enum Schema.documentTypes v = true
  <-> is_Some (Metadata.as_string v ≫= Metadata.type_of_name).
Proof.
  destruct v as [[| | |s| |]|];
    cbn -[Schema.documentTypes Metadata.type_of_name];
    try (split; [discriminate|intros [? [=]]]).
  rewrite bool_decide_eq_true, documentTypes_names, list_elem_of_fmap.
  split.
  - intros (d & -> & _). rewrite type_of_name_name. eauto.
  - intros [d Hd]. exists d. split; [now apply type_of_name_Some|].
    destruct d; set_solver.
Qed.

(** X7.  Rendering a value of the metadata type as JSON and parsing it with
    the schema gives the value back: every value of the type is accepted,
    with or without an author and whatever the numbers of topics and
    keywords. *)
Theorem X7_parse_to_json (m : Metadata.DocumentMetadata) :
  Metadata.parse (Metadata.to_json m) = Some m
  /\ Schema.documentMetadataSchema (Some (Metadata.to_json m)) = true.
Proof.
  destruct m as [t a s ts ks d]. split.
  - unfold Metadata.parse, Metadata.to_json. cbn [assoc String.eqb Ascii.eqb
      Bool.eqb Metadata.title Metadata.author Metadata.summary Metadata.topics
      Metadata.keywords Metadata.documentType].
    cbn -[Metadata.type_of_name Metadata.type_name mapM].
    rewrite !mapM_as_string_fmap, type_of_name_name.
    now destruct a.
  - unfold Schema.documentMetadataSchema, Schema.z_object, Metadata.to_json.
    cbn [forallb fst snd assoc String.eqb Ascii.eqb Bool.eqb Metadata.title
      Metadata.author Metadata.summary Metadata.topics Metadata.keywords
      Metadata.documentType].
    rewrite !andb_true_iff. repeat split.
    + now destruct a.
    + apply z_array_as_string_array. cbn. rewrite mapM_as_string_fmap. eauto.
    + apply z_array_as_string_array. cbn. rewrite mapM_as_string_fmap. eauto.
    + apply z_enum_as_type. cbn -[Metadata.type_of_name Metadata.type_name].
      rewrite type_of_name_name. eauto.
Qed.

Lemma as_string_Some (v : option json) (s : JsString.t) :
  Metadata.as_string v = Some s -> v = Some (JStr s).
Proof. destruct v as [[| | |s'| |]|]; cbn; congruence. Qed.

Lemma as_nullable_string_Some (v : option json) (a : option JsString.t) :
  Metadata.as_nullable_string v = Some a ->
  v = Some match a with Some s => JStr s | None => JNull end.
Proof. destruct v as [[| | |s'| |]|]; cbn; intros [= <-]; reflexivity. Qed.

Lemma as_string_array_Some (v : option json) (l : list JsString.t) :
  Metadata.as_string_array v = Some l -> v = Some (JArr (JStr <$> l)).
Proof.
  destruct v as [[| | | |items|]|]; cbn; try discriminate.
  intros H. now rewrite (mapM_as_string_Some items l H).
Qed.

Lemma parse_fields (fields : list (string * json))
    (m : Metadata.DocumentMetadata) :
  Metadata.parse (JObj fields) = Some m ->
  forall key, key ∈ Metadata.shape_keys ->
    assoc key fields = get_field key (Metadata.to_json m).
Proof.
  unfold Metadata.parse.
  destruct (Metadata.as_string (assoc "title" fields)) as [t|] eqn:Ht;
    [|discriminate].
  destruct (Metadata.as_nullable_string (assoc "author" fields)) as [a|] eqn:Ha;
    [|discriminate].
  destruct (Metadata.as_string (assoc "summary" fields)) as [s|] eqn:Hs;
    [|discriminate].
  destruct (Metadata.as_string_array (assoc "topics" fields)) as [ts|] eqn:Hts;
    [|discriminate].
  destruct (Metadata.as_string_array (assoc "keywords" fields)) as [ks|] eqn:Hks;
    [|discriminate].
  destruct (Metadata.as_string (assoc "documentType" fields)) as [n|] eqn:Hn;
    [|discriminate].
  cbn [mbind option_bind].
  destruct (Metadata.type_of_name n) as [d|] eqn:Hd; [|discriminate].
  intros [= <-] key Hkey.
  apply as_string_Some in Ht, Hs, Hn.
  apply as_nullable_string_Some in Ha.
  apply as_string_array_Some in Hts, Hks.
  apply type_of_name_Some in Hd. subst n.
  unfold Metadata.shape_keys in Hkey.
  repeat (apply elem_of_cons in Hkey as [->|Hkey]; [assumption|]).
  now apply elem_of_nil in Hkey.
Qed.

Lemma schema_accepts_iff_parses (v : json) :
  Schema.documentMetadataSchema (Some v) = true
  <-> is_Some (Metadata.parse v).
Proof.
  destruct v as [| | | | |fields];
    try (split; [discriminate|intros [? [=]]]).
  unfold Schema.documentMetadataSchema, Schema.z_object, Metadata.parse.
  cbn [forallb fst snd]. rewrite !andb_true_iff.
  rewrite !z_string_as_string, z_nullable_as_nullable,
    !z_array_as_string_array, z_enum_as_type.
  destruct (Metadata.as_string (assoc "title" fields));
    destruct (Metadata.as_nullable_string (assoc "author" fields));
    destruct (Metadata.as_string (assoc "summary" fields));
    destruct (Metadata.as_string_array (assoc "topics" fields));
    destruct (Metadata.as_string_array (assoc "keywords" fields));
    destruct (Metadata.as_string (assoc "documentType" fields) ≫=
              Metadata.type_of_name);
    cbn [mbind option_bind]; split;
    try (intros [? [=]]); try (intros (?&?&?&?&?&?&?));
    repeat match goal with
    | H : is_Some None |- _ => destruct H as [? [=]]
    end; eauto 10.
Qed.

(** X8.  The validator and the parser of the schema agree: an object is
    accepted exactly when it parses to a value of the metadata type, and the
    parsed value holds under each of the six keys what the object holds
    there. *)
Theorem X8_accepted_objects_parse (v : json) :
  Schema.documentMetadataSchema (Some v) = true ->
  exists m : Metadata.DocumentMetadata,
    Metadata.parse v = Some m
    /\ forall key, key ∈ Metadata.shape_keys ->
         get_field key v = get_field key (Metadata.to_json m).
Proof.
  intros Hvalid. apply schema_accepts_iff_parses in Hvalid as [m Hm].
  exists m. split; [assumption|].
  destruct v as [| | | | |fields]; try discriminate Hm.
  now apply parse_fields.
Qed.

(** X9.  None of the six keys is optional: an object that lacks one of them
    is rejected, [author] included, which may be [null] but not absent; and
    a value that is not an object is rejected. *)
Theorem X9_missing_key_rejected (v : json) (key : string) :
  key ∈ Metadata.shape_keys ->
  get_field key v = None ->
  Schema.documentMetadataSchema (Some v) = false
  /\ Metadata.parse v = None.
Proof.
  intros Hkey Hmissing.
  assert (Metadata.parse v = None) as Hparse.
  { destruct (Metadata.parse v) as [m|] eqn:Hm; [|reflexivity].
    destruct v as [| | | | |fields]; try discriminate Hm.
    pose proof (parse_fields fields m Hm key Hkey) as Hfield.
    cbn [get_field] in Hmissing. rewrite Hmissing in Hfield.
    unfold Metadata.shape_keys in Hkey. destruct m as [t a s ts ks d].
    repeat (apply elem_of_cons in Hkey as [->|Hkey]; [discriminate Hfield|]).
    now apply elem_of_nil in Hkey. }
  split; [|assumption].
  destruct (Schema.documentMetadataSchema (Some v)) eqn:Hvalid; [|reflexivity].
  apply schema_accepts_iff_parses in Hvalid as [m Hm]. congruence.
Qed.

(** X10.  Provided the Metadata Generator only returns objects that the
    schema accepts, the [metadata] of every response with status 200 parses
    to a value of the metadata type: [title] and [summary] are strings,
    [author] is a string or [null], [topics] and [keywords] are arrays of
    strings and [documentType] is one of the ten names. *)
Theorem X10_response_metadata_typed `{rt : JsRuntime}
    (pdf : list byte -> thrown + PdfData)
    (generateObject : GenerateObjectOptions -> thrown + json)
    (req : Request) (resp : Response) (log log' : list event) :
  (forall extractedText object,
     generateObject (generator_options extractedText) = inr object ->
     Schema.documentMetadataSchema (Some object) = true) ->
  extract pdf generateObject req log = (inr resp, log') ->
  status resp = 200 ->
  exists (object : json) (m : Metadata.DocumentMetadata),
    get_field "metadata" (body resp) = Some object
    /\ Metadata.parse object = Some m
    /\ get_field "title" object = Some (JStr (Metadata.title m))
    /\ get_field "author" object
       = Some match Metadata.author m with
              | Some a => JStr a
              | None => JNull
              end
    /\ get_field "summary" object = Some (JStr (Metadata.summary m))
    /\ get_field "topics" object = Some (JArr (JStr <$> Metadata.topics m))
    /\ get_field "keywords" object
       = Some (JArr (JStr <$> Metadata.keywords m))
    /\ get_field "documentType" object
       = Some (JStr (Metadata.type_name (Metadata.documentType m))).
Proof.
  intros Hcontract Hrun Hok.
  destruct (run_ok_inv pdf generateObject req resp log log' Hrun Hok)
    as (file & pdfData & object & _ & _ & Hgen & ->).
  apply Hcontract, schema_accepts_iff_parses in Hgen as [m Hm].
  exists object, m. split; [reflexivity|]. split; [assumption|].
  destruct object as [| | | | |fields]; try discriminate Hm.
  pose proof (parse_fields fields m Hm) as Hfields.
  cbn [get_field].
  repeat split; (rewrite Hfields; [reflexivity|]);
    unfold Metadata.shape_keys; set_solver.
Qed.

(** ** The API description and the test script against the handler *)

Lemma sample_uploaded (file_name : option string) :
  uploaded (Sample.upload file_name) (Sample.the_file file_name).
Proof. eexists. split; reflexivity. Qed.

(** X11.  The statuses the API description lists for [POST /extract] are
    the statuses of the handler: every response carries a listed status,
    and each listed status is the status of some response. *)
Theorem X11_documented_statuses `{rt : JsRuntime} :
  (forall (pdf : list byte -> thrown + PdfData)
          (generateObject : GenerateObjectOptions -> thrown + json)
          (req : Request) (log : list event),
     exists resp log',
       extract pdf generateObject req log = (inr resp, log')
       /\ status_key (status resp) ∈ documented extract_responses)
  /\ Forall
       (fun key =>
          exists pdf generateObject req resp log',
            extract pdf generateObject req [] = (inr resp, log')
            /\ status_key (status resp) = key)
       (documented extract_responses).
Proof.
  split.
  - intros pdf generateObject req log.
    destruct (run_total pdf generateObject req log)
      as (resp & effects & Hrun & Hstatus & _).
    exists resp, (log ++ effects). split; [assumption|].
    change (documented extract_responses)
      with ["200"; "400"; "422"; "500"]%string.
    destruct Hstatus as [-> | [-> | [-> | ->]]];
      change (status_key 200) with "200"%string;
      change (status_key 400) with "400"%string;
      change (status_key 422) with "422"%string;
      change (status_key 500) with "500"%string; set_solver.
  - change (documented extract_responses)
      with ["200"; "400"; "422"; "500"]%string.
    repeat apply Forall_cons_2; [| | | |apply Forall_nil_2].
    + exists (Sample.extractor (JsString.lit "text") 1), Sample.generator,
        (Sample.upload (Some "report.pdf"%string)).
      eexists _, _. split.
      { refine (run_success _ _ _ (Sample.the_file (Some "report.pdf"%string))
                  {| text := JsString.lit "text"; numpages := 1 |}
                  Sample.report_metadata [] _ _ _); [|reflexivity..].
        split; [apply sample_uploaded|split; reflexivity]. }
      reflexivity.
    + exists (Sample.extractor (JsString.lit "text") 1), Sample.generator,
        Sample.no_upload.
      eexists _, _. split.
      { refine (run_missing_file _ _ _ ∅ [] _ _); [reflexivity|now left]. }
      reflexivity.
    + exists (Sample.extractor (JsString.lit " ") 1), Sample.generator,
        (Sample.upload (Some "scan.pdf"%string)).
      eexists _, _. split.
      { refine (run_no_text _ _ _ (Sample.the_file (Some "scan.pdf"%string))
                  {| text := JsString.lit " "; numpages := 1 |} [] _ _);
          [|reflexivity].
        split; [apply sample_uploaded|split; reflexivity]. }
      reflexivity.
    + exists (Sample.failing_extractor (ThrownValue JNull)), Sample.generator,
        (Sample.upload (Some "broken.pdf"%string)).
      eexists _, _. split.
      { refine (run_extraction_failed _ _ _
                  (Sample.the_file (Some "broken.pdf"%string))
                  (ThrownValue JNull) [] _ _ _);
          [apply sample_uploaded|reflexivity..]. }
      reflexivity.
Qed.

(** X12.  The fields of a response with status 200 are the properties the
    API description lists for it, in the same order, and so are the fields
    of [stats]; provided the generator only returns objects that the schema
    accepts, every property listed for [metadata] is present in it. *)
Theorem X12_documented_envelope `{rt : JsRuntime}
    (pdf : list byte -> thrown + PdfData)
    (generateObject : GenerateObjectOptions -> thrown + json)
    (req : Request) (resp : Response) (log log' : list event) :
  (forall extractedText object,
     generateObject (generator_options extractedText) = inr object ->
     Schema.documentMetadataSchema (Some object) = true) ->
  extract pdf generateObject req log = (inr resp, log') ->
  status resp = 200 ->
  keys (body resp) = documented extract_ok_properties
  /\ keys <$> get_field "stats" (body resp)
     = Some (documented
               (extract_ok_properties ++ ["stats"; "properties"]%string))
  /\ Forall
       (fun key =>
          is_Some (get_field "metadata" (body resp) ≫= get_field key))
       (documented
          (extract_ok_properties ++ ["metadata"; "properties"]%string)).
Proof.
  intros Hcontract Hrun Hok.
  destruct (run_ok_inv pdf generateObject req resp log log' Hrun Hok)
    as (file & pdfData & object & _ & _ & Hgen & ->).
  split; [reflexivity|]. split; [reflexivity|].
  apply Hcontract, schema_accepts_iff_parses in Hgen as [m Hm].
  destruct object as [| | | | |fields]; try discriminate Hm.
  pose proof (parse_fields fields m Hm) as Hfields.
  change (documented
            (extract_ok_properties ++ ["metadata"; "properties"]%string))
    with Metadata.shape_keys.
  apply Forall_forall. intros key Hkey.
  cbn [body c_json success_envelope get_field assoc String.eqb Ascii.eqb
    Bool.eqb mbind option_bind].
  rewrite (Hfields key Hkey). destruct m as [t a s ts ks d].
  unfold Metadata.shape_keys in Hkey.
  repeat (apply elem_of_cons in Hkey as [->|Hkey]; [cbn; eauto|]).
  now apply elem_of_nil in Hkey.
Qed.

(** X13.  The test script never reads a missing field of a response of the
    handler: when the response is [ok] the body has [stats] with the numbers
    [pageCount] and [textLength], so the script saves the body and prints
    both; otherwise the body has the string [error], which it prints. *)
Theorem X13_script_reads_defined_fields `{rt : JsRuntime}
    (pdf : list byte -> thrown + PdfData)
    (generateObject : GenerateObjectOptions -> thrown + json)
    (req : Request) (log : list event) :
  exists resp log',
    extract pdf generateObject req log = (inr resp, log')
    /\ ((TestScript.ok resp = true
         /\ exists pageCount textLength : Z,
              TestScript.report resp
              = TestScript.Saved (body resp) (Some (JNum pageCount))
                  (Some (JNum textLength)))
        \/ (TestScript.ok resp = false
            /\ exists message : JsString.t,
                 TestScript.report resp
                 = TestScript.Reported (Some (JStr message)))).
Proof.
  by_stage pdf generateObject req log; eexists _, _;
    (split; [reflexivity|]);
    try (right; split; [reflexivity|]; eexists; reflexivity).
  left. split; [reflexivity|]. eexists _, _. reflexivity.
Qed.

(** X14.  The upload of the test script passes the presence and the type
    check whatever bytes it read: the handler hands exactly those bytes to
    the Text Extractor and never answers 400. *)
Theorem X14_script_upload_accepted `{rt : JsRuntime}
    (pdf : list byte -> thrown + PdfData)
    (generateObject : GenerateObjectOptions -> thrown + json)
    (pdfBuffer : list byte) (log : list event) :
  exists resp rest,
    extract pdf generateObject (TestScript.upload pdfBuffer) log
    = (inr resp, log ++ PdfParse pdfBuffer :: rest)
    /\ status resp <> 400
    /\ count_calls is_extractor_call rest = 0%nat.
Proof.
  set (file := {| name := Some TestScript.file_name; content := pdfBuffer |}).
  assert (uploaded (TestScript.upload pdfBuffer) file) as Hup
    by (eexists; split; reflexivity).
  assert (has_pdf_name file = true) as Hname by reflexivity.
  destruct (pdf pdfBuffer) as [cause|pdfData] eqn:Hpdf.
  { eexists _, _. split.
    - exact (run_extraction_failed pdf generateObject _ file cause log
               Hup Hname Hpdf).
    - split; [discriminate|reflexivity]. }
  assert (extracted pdf (TestScript.upload pdfBuffer) file pdfData) as Hex
    by exact (conj Hup (conj Hname Hpdf)).
  destruct (blank (text pdfData)) eqn:Hblank.
  { eexists _, _. split.
    - exact (run_no_text pdf generateObject _ file pdfData log Hex Hblank).
    - split; [discriminate|reflexivity]. }
  destruct (generateObject (generator_options (text pdfData)))
    as [cause|object] eqn:Hgen.
  - eexists _, _. split.
    + exact (run_generation_failed pdf generateObject _ file pdfData cause log
               Hex Hblank Hgen).
    + split; [discriminate|reflexivity].
  - eexists _, _. split.
    + exact (run_success pdf generateObject _ file pdfData object log
               Hex Hblank Hgen).
    + split; [discriminate|reflexivity].
Qed.

(** ** The guards of the handler *)

Lemma blank_false_iff (s : JsString.t) :
  blank s = false
  <-> exists u, In u s /\ JsString.is_white_space u = false.
Proof.
  unfold blank. induction s as [|v s IH]; cbn.
  - split; [discriminate|]. now intros (u & [] & _).
  - rewrite andb_false_iff, IH. split.
    + intros [Hv|(u & Hin & Hu)]; [exists v|exists u]; auto.
    + intros (u & [<-|Hin] & Hu); [now left|right; now exists u].
Qed.

(** X15.  The emptiness guard lets a text through exactly when it holds a
    code unit that is not white space; its first test, [!extractedText], is
    subsumed by the second: the guard is the test that the trimmed text is
    empty. *)
Theorem X15_emptiness_guard (extractedText : JsString.t) :
  (no_text extractedText = false
   <-> exists u, In u extractedText /\ JsString.is_white_space u = false)
  /\ no_text extractedText
     = (JsString.length (JsString.trim extractedText) =? 0).
Proof.
  split.
  - rewrite no_text_blank. apply blank_false_iff.
  - unfold no_text. now destruct extractedText.
Qed.

(** ** The further properties on the sample requests *)

Lemma X1_parse_rejected_witness :
  exists resp effects,
    extract (Sample.extractor Sample.report_text 5) Sample.generator
      Fixture.malformed [] = (inr resp, [] ++ effects)
    /\ status resp = 500
    /\ body resp
       = JObj [("error"%string,
                JStr (failed_prefix
                        ++ catch_message
                             (ThrownError (JsString.lit "Malformed form body"))))]
    /\ effects
       = [ConsoleError (JsString.lit "Error processing PDF:")
            (ThrownError (JsString.lit "Malformed form body"))]
    /\ count_calls is_extractor_call effects = 0%nat
    /\ count_calls is_generator_call effects = 0%nat.
Proof.
  apply (X1_parse_rejected (Sample.extractor Sample.report_text 5)
           Sample.generator Fixture.malformed
           (ThrownError (JsString.lit "Malformed form body")) []).
  reflexivity.
Defined.

Lemma X2_status_identifies_stage_witness :
  (status (c_json (error_body no_text_message) 422) = 400 ->
     [PdfParse (content (Sample.the_file (Some "scan.pdf"%string)))] = []
     /\ (fails_with (Sample.extractor (JsString.lit "   ") 2) Sample.generator
           (Sample.upload (Some "scan.pdf"%string)) MissingFile
         \/ fails_with (Sample.extractor (JsString.lit "   ") 2)
              Sample.generator (Sample.upload (Some "scan.pdf"%string))
              UnsupportedFileType))
  /\ (status (c_json (error_body no_text_message) 422) = 422 ->
        fails_with (Sample.extractor (JsString.lit "   ") 2) Sample.generator
          (Sample.upload (Some "scan.pdf"%string)) NoTextContent)
  /\ (status (c_json (error_body no_text_message) 422) = 500 ->
        (exists cause,
           parseBody (Sample.upload (Some "scan.pdf"%string)) = inl cause)
        \/ (exists cause,
              fails_with (Sample.extractor (JsString.lit "   ") 2)
                Sample.generator (Sample.upload (Some "scan.pdf"%string))
                (ExtractionFailed cause)
              \/ fails_with (Sample.extractor (JsString.lit "   ") 2)
                   Sample.generator (Sample.upload (Some "scan.pdf"%string))
                   (GenerationFailed cause))).
Proof.
  apply (X2_status_identifies_stage (Sample.extractor (JsString.lit "   ") 2)
           Sample.generator (Sample.upload (Some "scan.pdf"%string))
           (c_json (error_body no_text_message) 422) []
           [PdfParse (content (Sample.the_file (Some "scan.pdf"%string)))]).
  reflexivity.
Defined.

Lemma X5_prompt_bounded_witness :
  82 < JsString.length (build_prompt (JsString.lit "text")) <= 15082
  /\ exists extractedText,
       build_prompt (JsString.lit "text")
       = prompt_header ++ JsString.slice extractedText 0 15000
           ++ prompt_footer
       /\ JsString.length (build_prompt (JsString.lit "text"))
          = 82 + Z.min (JsString.length extractedText) 15000.
Proof.
  apply (X5_prompt_bounded (Sample.extractor (JsString.lit "text") 1)
           Sample.generator (Sample.upload (Some "report.pdf"%string))
           model_id (build_prompt (JsString.lit "text"))).
  right. right. left. reflexivity.
Defined.

Lemma X6_generator_call_depends_on_prefix_witness :
  generator_options Sample.long_text = generator_options Fixture.longer_text
  /\ exists r1 r2 e1 e2,
       extract (Sample.extractor Sample.long_text 3) Sample.generator
         (Sample.upload (Some "big.PDF"%string)) [] = (inr r1, e1)
       /\ extract (Sample.extractor Fixture.longer_text 3)
            (Sample.failing_generator (ThrownError Sample.quota_exceeded))
            (Sample.upload (Some "big.PDF"%string)) [] = (inr r2, e2)
       /\ List.filter is_generator_call e1
          = [GenerateObject model_id
               (prompt_header ++ take (Z.to_nat 15000) Sample.long_text
                  ++ prompt_footer)]
       /\ List.filter is_generator_call e2 = List.filter is_generator_call e1
       /\ (Sample.generator (generator_options Sample.long_text)
           = Sample.failing_generator (ThrownError Sample.quota_exceeded)
               (generator_options Fixture.longer_text) ->
           status r1 = status r2
           /\ get_field "metadata" (body r1) = get_field "metadata" (body r2)).
Proof.
  apply (X6_generator_call_depends_on_prefix
           (Sample.extractor Sample.long_text 3)
           (Sample.extractor Fixture.longer_text 3)
           Sample.generator
           (Sample.failing_generator (ThrownError Sample.quota_exceeded))
           (Sample.upload (Some "big.PDF"%string))
           (Sample.the_file (Some "big.PDF"%string))
           {| text := Sample.long_text; numpages := 3 |}
           {| text := Fixture.longer_text; numpages := 3 |}).
  - eexists. split; reflexivity.
  - reflexivity.
  - reflexivity.
  - reflexivity.
  - vm_compute. reflexivity.
  - vm_compute. reflexivity.
  - vm_compute. reflexivity.
Defined.

Lemma X8_accepted_objects_parse_witness :
  exists m : Metadata.DocumentMetadata,
    Metadata.parse Sample.report_metadata = Some m
    /\ forall key, key ∈ Metadata.shape_keys ->
         get_field key Sample.report_metadata
         = get_field key (Metadata.to_json m).
Proof.
  apply (X8_accepted_objects_parse Sample.report_metadata). reflexivity.
Defined.

Lemma X9_missing_key_rejected_witness :
  Schema.documentMetadataSchema (Some Fixture.anonymous_metadata) = false
  /\ Metadata.parse Fixture.anonymous_metadata = None.
Proof.
  apply (X9_missing_key_rejected Fixture.anonymous_metadata "author"%string).
  - right. left.
  - reflexivity.
Defined.

Lemma X10_response_metadata_typed_witness :
  exists (object : json) (m : Metadata.DocumentMetadata),
    get_field "metadata" (body Fixture.report_response) = Some object
    /\ Metadata.parse object = Some m
    /\ get_field "title" object = Some (JStr (Metadata.title m))
    /\ get_field "author" object
       = Some match Metadata.author m with
              | Some a => JStr a
              | None => JNull
              end
    /\ get_field "summary" object = Some (JStr (Metadata.summary m))
    /\ get_field "topics" object = Some (JArr (JStr <$> Metadata.topics m))
    /\ get_field "keywords" object
       = Some (JArr (JStr <$> Metadata.keywords m))
    /\ get_field "documentType" object
       = Some (JStr (Metadata.type_name (Metadata.documentType m))).
Proof.
  apply (X10_response_metadata_typed (Sample.extractor Sample.report_text 5)
           Sample.generator (Sample.upload (Some "report.pdf"%string))
           Fixture.report_response [] Fixture.report_log).
  - intros extractedText object [= <-]. reflexivity.
  - vm_compute. reflexivity.
  - reflexivity.
Defined.

Lemma X12_documented_envelope_witness :
  keys (body Fixture.report_response) = documented extract_ok_properties
  /\ keys <$> get_field "stats" (body Fixture.report_response)
     = Some (documented
               (extract_ok_properties ++ ["stats"; "properties"]%string))
  /\ Forall
       (fun key =>
          is_Some (get_field "metadata" (body Fixture.report_response)
                     ≫= get_field key))
       (documented
          (extract_ok_properties ++ ["metadata"; "properties"]%string)).
Proof.
  apply (X12_documented_envelope (Sample.extractor Sample.report_text 5)
           Sample.generator (Sample.upload (Some "report.pdf"%string))
           Fixture.report_response [] Fixture.report_log).
  - intros extractedText object [= <-]. reflexivity.
  - vm_compute. reflexivity.
  - reflexivity.
Defined.
